(** * csv_processor: filter and aggregation engine of [csv_processor.py]

    A shallow embedding of the operator classes, the aggregation classes,
    [CSVProcessor.filter_data], [CSVProcessor.aggregate_data],
    [parse_filter], [parse_aggregation] and the body of [main], followed
    by the properties C1..C10 of the specification and by further
    properties X1..X19 read off the code.

    Conventions of the embedding:
    - a Python [str] is a [string]; the only character the program itself
      inspects is ['='], which is ASCII, so splitting the UTF-8 bytes and
      splitting the code points give the same segments;
    - a Python [float] is a binary64 value, a [spec_float] computed with
      [prec = 53] and [emax = 1024];
    - a row (a [dict] produced by [csv.DictReader]) is a [gmap string string]:
      cells are strings, as in the data model of the specification (the
      [None] that the reader puts in a short row is left out);
    - a call either returns a value or raises: [result A];
    - the builtins whose full Unicode behaviour lies outside the program
      ([str.lower], [str.strip], [float] of a string) are the fields of
      the class [PyBuiltins]; every definition and theorem is stated for an
      arbitrary instance, and [ascii_builtins] is an instance that runs. *)

From Stdlib Require Import ZArith Ascii String.
From Stdlib Require Import Floats.SpecFloat.
From stdpp Require Import base option list strings gmap fin_maps.

Local Open Scope Z_scope.

(** ** Exceptions and results *)

(** The exceptions the engine can raise.  Every error of the program
    itself is a [ValueError] told apart by its message; [IndexError] and
    [KeyError] come from subscripting. *)
Inductive exn : Type :=
| ValueError (msg : string)
| IndexError
| KeyError (key : string).

Inductive result (A : Type) : Type :=
| Return (a : A)
| Raise (e : exn).
Arguments Return {A} a.
Arguments Raise {A} e.

Definition bind {A B : Type} (m : result A) (k : A -> result B) : result B :=
  match m with
  | Return a => k a
  | Raise e => Raise e
  end.

Global Instance exn_eq_dec : EqDecision exn.
Proof. solve_decision. Defined.
Global Instance result_eq_dec {A : Type} `{EqDecision A} : EqDecision (result A).
Proof. solve_decision. Defined.

Global Instance result_ret : MRet result := @Return.
Global Instance result_bind : MBind result := fun A B k m => bind m k.

(** ** Python builtins used by the program *)

Module Py.

(** binary64 *)
Definition float : Type := spec_float.
Definition prec : Z := 53.
Definition emax : Z := 1024.

Definition float_zero : float := S754_zero false.            (* 0.0 *)
Definition float_add : float -> float -> float := SFadd prec emax.
Definition float_div : float -> float -> float := SFdiv prec emax.
Definition float_lt : float -> float -> bool := SFltb.        (* x < y *)
Definition float_gt (x y : float) : bool := SFltb y x.        (* x > y *)
Definition float_le : float -> float -> bool := SFleb.        (* x <= y *)
Definition float_of_int (n : Z) : float := binary_normalize prec emax n 0 false.

Definition is_nan (x : float) : bool :=
  match x with S754_nan => true | _ => false end.

(** [s.split(sep)] for a one-character separator: one segment more than
    there are separators, empty segments kept. *)
Fixpoint split (sep : ascii) (s : string) : list string :=
  match s with
  | EmptyString => [EmptyString]
  | String c rest =>
      if Ascii.eqb c sep then EmptyString :: split sep rest
      else match split sep rest with
           | seg :: segs => String c seg :: segs
           | [] => [String c EmptyString]
           end
  end.

(** [c in s] for a character [c]; the program does not call it, the
    properties of [split] are stated with it. *)
Fixpoint contains (c : ascii) (s : string) : bool :=
  match s with
  | EmptyString => false
  | String d rest => Ascii.eqb d c || contains c rest
  end.

(** [sum(values)]: the items added left to right, starting from the
    integer 0, which the first float addition turns into 0.0.  (CPython 3.12
    and later carry a compensation term along; it is zero in the sums
    evaluated below, which are exact.) *)
Definition sum (values : list float) : float :=
  fold_left float_add values (float_of_int 0).

(** [min(values)] on a non-empty list: the first item is the candidate, a
    later item replaces it when [item < candidate]. *)
Definition min (first : float) (others : list float) : float :=
  fold_left (fun best item => if float_lt item best then item else best)
            others first.

(** [max(values)]: a later item replaces the candidate when
    [item > candidate]. *)
Definition max (first : float) (others : list float) : float :=
  fold_left (fun best item => if float_gt item best then item else best)
            others first.

End Py.

(** The builtins applied to strings. *)
Class PyBuiltins : Type := {
  str_lower : string -> string;             (* s.lower() *)
  str_strip : string -> string;             (* s.strip() *)
  float_of_str : string -> option Py.float  (* float(s); None: ValueError *)
}.

(** ** The program *)

(** A row of the dataset and the dataset, as [csv.DictReader] gives them. *)
Abbreviation Row := (gmap string string).
Abbreviation Dataset := (list (gmap string string)).

(** [class FilterOperator(ABC)] and its three subclasses. *)
Inductive FilterOperator : Type :=
| EqualsOperator
| GreaterOperator
| LessOperator.

(** [class AggregationFunction(ABC)] and its three subclasses. *)
Inductive AggregationFunction : Type :=
| AverageFunction
| MinFunction
| MaxFunction.

Global Instance FilterOperator_eq_dec : EqDecision FilterOperator.
Proof. solve_decision. Defined.
Global Instance AggregationFunction_eq_dec : EqDecision AggregationFunction.
Proof. solve_decision. Defined.

(** The messages of the [ValueError]s the program raises. *)
Definition msg_unknown_column (column : string) : string :=
  "Колонка '" +:+ column +:+ "' не найдена в данных".
Definition msg_unsupported_operator (operator : string) : string :=
  "Неподдерживаемый оператор: " +:+ operator.
Definition msg_unsupported_function (function : string) : string :=
  "Неподдерживаемая функция агрегации: " +:+ function.
Definition msg_no_numeric (column : string) : string :=
  "В колонке '" +:+ column +:+ "' нет числовых значений для агрегации".
Definition msg_filter_format : string :=
  "Фильтр должен быть в формате: column=operator=value".
Definition msg_aggregation_format : string :=
  "Агрегация должна быть в формате: column=function".

Section Program.
Context `{PyBuiltins}.

(** [FilterOperator.apply(value, target)], dispatched on the class. *)
Definition apply (op : FilterOperator) (value target : string) : bool :=
  match op with
  | EqualsOperator => String.eqb (str_lower value) (str_lower target)
  | GreaterOperator =>
      match float_of_str value with
      | None => false
      | Some v =>
          match float_of_str target with
          | None => false
          | Some t => Py.float_gt v t
          end
      end
  | LessOperator =>
      match float_of_str value with
      | None => false
      | Some v =>
          match float_of_str target with
          | None => false
          | Some t => Py.float_lt v t
          end
      end
  end.

(** [AggregationFunction.calculate(values)], dispatched on the class. *)
Definition calculate (f : AggregationFunction) (values : list Py.float)
  : Py.float :=
  match f, values with
  | _, [] => Py.float_zero
  | AverageFunction, _ =>
      Py.float_div (Py.sum values) (Py.float_of_int (Z.of_nat (length values)))
  | MinFunction, v :: vs => Py.min v vs
  | MaxFunction, v :: vs => Py.max v vs
  end.

(** [self.operators] and [self.aggregation_functions] of [CSVProcessor]. *)
Definition operators : gmap string FilterOperator :=
  <["eq" := EqualsOperator]>
    (<["gt" := GreaterOperator]> (<["lt" := LessOperator]> ∅)).

Definition aggregation_functions : gmap string AggregationFunction :=
  <["avg" := AverageFunction]>
    (<["min" := MinFunction]> (<["max" := MaxFunction]> ∅)).

(** [data[0]] *)
Definition first_row (data : Dataset) : result Row :=
  match data with
  | [] => Raise IndexError
  | row :: _ => Return row
  end.

(** [row[column]] *)
Definition getitem (row : Row) (column : string) : result string :=
  match row !! column with
  | Some cell => Return cell
  | None => Raise (KeyError column)
  end.

(** The loop of [filter_data]; [filtered_data] is the list built so far. *)
Fixpoint filter_loop (filter_op : FilterOperator) (column value : string)
    (rows : Dataset) (filtered_data : Dataset) : result Dataset :=
  match rows with
  | [] => Return filtered_data
  | row :: rest =>
      cell ← getitem row column;
      if apply filter_op cell value
      then filter_loop filter_op column value rest (filtered_data ++ [row])
      else filter_loop filter_op column value rest filtered_data
  end.

(** [CSVProcessor.filter_data] *)
Definition filter_data (data : Dataset) (column operator value : string)
  : result Dataset :=
  first ← first_row data;
  match first !! column with
  | None => Raise (ValueError (msg_unknown_column column))
  | Some _ =>
      match operators !! operator with
      | None => Raise (ValueError (msg_unsupported_operator operator))
      | Some filter_op => filter_loop filter_op column value data []
      end
  end.

(** The loop of [aggregate_data]: a cell that [float] rejects is skipped. *)
Fixpoint numeric_loop (column : string) (rows : Dataset)
    (numeric_values : list Py.float) : result (list Py.float) :=
  match rows with
  | [] => Return numeric_values
  | row :: rest =>
      cell ← getitem row column;
      match float_of_str cell with
      | Some x => numeric_loop column rest (numeric_values ++ [x])
      | None => numeric_loop column rest numeric_values
      end
  end.

(** [CSVProcessor.aggregate_data] *)
Definition aggregate_data (data : Dataset) (column function : string)
  : result Py.float :=
  match data with
  | [] => Return Py.float_zero
  | first :: _ =>
      match first !! column with
      | None => Raise (ValueError (msg_unknown_column column))
      | Some _ =>
          match aggregation_functions !! function with
          | None => Raise (ValueError (msg_unsupported_function function))
          | Some agg_func =>
              numeric_values ← numeric_loop column data [];
              match numeric_values with
              | [] => Raise (ValueError (msg_no_numeric column))
              | _ :: _ => Return (calculate agg_func numeric_values)
              end
          end
      end
  end.

(** [operator_map] of [parse_filter] *)
Definition operator_map : gmap string string :=
  <["==" := "eq"]> (<["eq" := "eq"]> (<[">" := "gt"]> (<["gt" := "gt"]>
  (<[">=" := "gt"]> (<["<" := "lt"]> (<["lt" := "lt"]>
  (<["<=" := "lt"]> ∅))))))).

(** [parse_filter]; the result is the tuple of three values, each [None]
    or a string. *)
Definition parse_filter (filter_str : string)
  : result (option string * option string * option string) :=
  if String.eqb filter_str "" then Return (None, None, None)
  else
    match Py.split "=" filter_str with
    | [column; operator; value] =>
        match operator_map !! operator with
        | None => Raise (ValueError (msg_unsupported_operator operator))
        | Some canonical =>
            Return (Some (str_strip column), Some canonical,
                    Some (str_strip value))
        end
    | _ => Raise (ValueError msg_filter_format)
    end.

(** [parse_aggregation] *)
Definition parse_aggregation (agg_str : string)
  : result (option string * option string) :=
  if String.eqb agg_str "" then Return (None, None)
  else
    match Py.split "=" agg_str with
    | [column; function] =>
        Return (Some (str_strip column), Some (str_lower (str_strip function)))
    | _ => Raise (ValueError msg_aggregation_format)
    end.

End Program.

(** ** The command line

    [main] once [read_csv] has returned the dataset [data]: the body of its
    [try] block from the emptiness test on.  [filter_arg] and
    [aggregate_arg] are [args.filter] and [args.aggregate], [None] when the
    option is absent.  What [main] prints is recorded as an [outcome]; the
    rendering itself is [tabulate]'s. *)

Inductive outcome : Type :=
| EmptyFile                       (* print("CSV файл пустой"); return *)
| NoMatches                       (* print("Нет данных, ..."); return *)
| Aggregation (column function : string) (value : Py.float)
                                  (* display_aggregation_result(...) *)
| Table (data : Dataset)          (* display_table(data) *)
| Error (e : exn).                (* except Exception: stderr, sys.exit(1) *)

Global Instance float_eq_dec : EqDecision Py.float.
Proof. unfold Py.float. solve_decision. Defined.
Global Instance outcome_eq_dec : EqDecision outcome.
Proof. solve_decision. Defined.

(** [if arg:] on an optional string: [None] and the empty string are false. *)
Definition truthy (arg : option string) : option string :=
  match arg with
  | Some s => if String.eqb s "" then None else Some s
  | None => None
  end.

Section CommandLine.
Context `{PyBuiltins}.

(** From [if args.aggregate:] to the end of the [try] block.  The branch of
    a tuple with a [None] is what passing [None] for the column does on a
    dataset with a first row ([None] is no key of it); [parse_aggregation]
    never returns such a tuple on a non-empty string. *)
Definition main_aggregate (data : Dataset) (aggregate_arg : option string)
  : outcome :=
  match truthy aggregate_arg with
  | Some agg_str =>
      match parse_aggregation agg_str with
      | Raise e => Error e
      | Return (Some column, Some function) =>
          match aggregate_data data column function with
          | Raise e => Error e
          | Return value => Aggregation column function value
          end
      | Return _ => Error (ValueError (msg_unknown_column "None"))
      end
  | None => Table data
  end.

(** The body of [main] after [data = processor.read_csv(args.file)]. *)
Definition main_body (data : Dataset) (filter_arg aggregate_arg : option string)
  : outcome :=
  match data with
  | [] => EmptyFile
  | _ :: _ =>
      match truthy filter_arg with
      | Some filter_str =>
          match parse_filter filter_str with
          | Raise e => Error e
          | Return (Some column, Some operator, Some value) =>
              match filter_data data column operator value with
              | Raise e => Error e
              | Return [] => NoMatches
              | Return (row :: rows) =>
                  main_aggregate (row :: rows) aggregate_arg
              end
          | Return _ => Error (ValueError (msg_unknown_column "None"))
          end
      | None => main_aggregate data aggregate_arg
      end
  end.

End CommandLine.

(** ** An instance of the builtins on ASCII text

    [PyAscii.lower] and [PyAscii.strip] are [str.lower] and [str.strip] on
    strings of ASCII characters.  [PyAscii.float_of_str] is [float] on the
    ASCII literals without digit separators: optional blanks, an optional
    sign, then [inf], [infinity], [nan] (any case) or a decimal number with
    an optional exponent; the decimal value is rounded to the nearest
    binary64, ties to even.  Underscores between digits and non-ASCII
    digits, which [float] accepts too, are outside this instance. *)

Module PyAscii.

Definition code (c : ascii) : Z := Z.of_N (N_of_ascii c).

Definition lower_char (c : ascii) : ascii :=
  if (65 <=? code c) && (code c <=? 90)
  then ascii_of_N (Z.to_N (code c + 32)) else c.

Fixpoint lower (s : string) : string :=
  match s with
  | EmptyString => EmptyString
  | String c rest => String (lower_char c) (lower rest)
  end.

(** tab, line feed, vertical tab, form feed, carriage return, the four
    separators 0x1c..0x1f and the space *)
Definition is_space (c : ascii) : bool :=
  ((9 <=? code c) && (code c <=? 13))
  || ((28 <=? code c) && (code c <=? 32)).

Fixpoint lstrip (s : string) : string :=
  match s with
  | String c rest => if is_space c then lstrip rest else s
  | EmptyString => EmptyString
  end.

Fixpoint rstrip (s : string) : string :=
  match s with
  | EmptyString => EmptyString
  | String c rest =>
      match rstrip rest with
      | EmptyString => if is_space c then EmptyString
                       else String c EmptyString
      | kept => String c kept
      end
  end.

Definition strip (s : string) : string := rstrip (lstrip s).

Definition digit (c : ascii) : option Z :=
  if (48 <=? code c) && (code c <=? 57) then Some (code c - 48) else None.

(** Reads the longest prefix of digits: the number read after [acc], the
    count of digits added to [n], and what follows. *)
Fixpoint digits (s : string) (acc n : Z) : Z * Z * string :=
  match s with
  | String c rest =>
      match digit c with
      | Some d => digits rest (10 * acc + d) (n + 1)
      | None => (acc, n, s)
      end
  | EmptyString => (acc, n, s)
  end.

(** An optional sign: [true] for a minus. *)
Definition sign (s : string) : bool * string :=
  match s with
  | String "-" rest => (true, rest)
  | String "+" rest => (false, rest)
  | _ => (false, s)
  end.

(** The binary64 nearest to [(-1)^neg * m * 10^e]. *)
Definition decimal (neg : bool) (m e : Z) : Py.float :=
  match m with
  | Zpos p =>
      if 0 <=? e
      then binary_normalize Py.prec Py.emax
             (cond_Zopp neg (m * 10 ^ e)) 0 false
      else SFdiv Py.prec Py.emax (S754_finite neg p 0)
             (S754_finite false (Z.to_pos (10 ^ (- e))) 0)
  | _ => S754_zero neg
  end.

(** The exponent part, or nothing; fails on trailing text. *)
Definition exponent (s : string) : option Z :=
  match s with
  | EmptyString => Some 0
  | String c rest =>
      if bool_decide (c = "e"%char) || bool_decide (c = "E"%char)
      then let '(neg, rest') := sign rest in
           match digits rest' 0 0 with
           | (v, n, EmptyString) =>
               if 0 <? n then Some (cond_Zopp neg v) else None
           | _ => None
           end
      else None
  end.

Definition number (neg : bool) (s : string) : option Py.float :=
  let '(m1, n1, r1) := digits s 0 0 in
  let '(m, nfrac, r2) :=
    match r1 with
    | String "." after => digits after m1 0
    | _ => (m1, 0, r1)
    end in
  if 0 <? n1 + nfrac
  then e ← exponent r2; Some (decimal neg m (e - nfrac))
  else None.

Definition float_of_str (s : string) : option Py.float :=
  let '(neg, body) := sign (strip s) in
  let word := lower body in
  if String.eqb word "inf" || String.eqb word "infinity"
  then Some (S754_infinity neg)
  else if String.eqb word "nan" then Some S754_nan
  else number neg body.

End PyAscii.

Definition ascii_builtins : PyBuiltins :=
  {| str_lower := PyAscii.lower;
     str_strip := PyAscii.strip;
     float_of_str := PyAscii.float_of_str |}.

(** ** The vocabulary of the specification *)

(** The dataset invariant of the reader: every row has the same key set. *)
Definition uniform_schema (data : Dataset) : Prop :=
  Forall (fun r1 : Row =>
            Forall (fun r2 : Row => dom r1 =@{gset string} dom r2) data) data.

Global Instance uniform_schema_dec (data : Dataset) :
  Decision (uniform_schema data).
Proof.
  unfold uniform_schema. apply Forall_dec. intros r1.
  apply Forall_dec. intros r2. apply _.
Defined.

Section Vocabulary.
Context `{PyBuiltins}.

(** What the filter keeps: the rows whose cell satisfies the operator. *)
Definition row_matches (filter_op : FilterOperator) (column value : string)
    (row : Row) : bool :=
  match row !! column with
  | Some cell => apply filter_op cell value
  | None => false
  end.

(** What the aggregation keeps: the cells that [float] accepts. *)
Definition numeric_cells (column : string) (data : Dataset)
  : list Py.float :=
  omap (fun row : Row => row !! column ≫= float_of_str) data.

End Vocabulary.

(** A list of numbers without NaN; the mean, the minimum and the maximum of
    a list of numbers. *)
Definition no_nan (values : list Py.float) : Prop :=
  Forall (fun x => Py.is_nan x = false) values.

Definition arithmetic_mean (values : list Py.float) : Py.float :=
  Py.float_div (Py.sum values) (Py.float_of_int (Z.of_nat (length values))).

Definition is_minimum (m : Py.float) (values : list Py.float) : Prop :=
  m ∈ values /\ forall x, x ∈ values -> Py.float_le m x = true.

Definition is_maximum (m : Py.float) (values : list Py.float) : Prop :=
  m ∈ values /\ forall x, x ∈ values -> Py.float_le x m = true.

(** [s.count(c)] for a character [c], and [sep.join(segments)] for a
    one-character separator: the words in which the grammar of the two
    parsers is stated. *)
Fixpoint count_char (c : ascii) (s : string) : nat :=
  match s with
  | EmptyString => 0%nat
  | String d rest =>
      if Ascii.eqb d c then S (count_char c rest) else count_char c rest
  end.


(** ** The sample dataset of the tests *)

Definition sample_row (name brand price rating : string) : Row :=
  <["name" := name]> (<["brand" := brand]> (<["price" := price]>
  (<["rating" := rating]> ∅))).

Definition iphone : Row := sample_row "iphone 15 pro" "apple" "999" "4.9".
Definition galaxy : Row := sample_row "galaxy s23 ultra" "samsung" "1199" "4.8".
Definition redmi : Row := sample_row "redmi note 12" "xiaomi" "199" "4.6".
Definition poco : Row := sample_row "poco x5 pro" "xiaomi" "299" "4.4".

Definition sample_data : Dataset := [iphone; galaxy; redmi; poco].

(** A row of the sample whose price is not a number, and a dataset with a
    row that has no column at all. *)
Definition unpriced : Row := sample_row "mystery" "xiaomi" "n/a" "4.0".
Definition ragged_data : Dataset := [iphone; ∅].

(** [10.5, 5.2, 20.8] *)
Definition sample_values : list Py.float :=
  omap PyAscii.float_of_str ["10.5"; "5.2"; "20.8"].

(** [nan, 1.0] *)
Definition nan_first : list Py.float := [S754_nan; Py.float_of_int 1].

(** The number a literal denotes, for the expected results below. *)
Definition literal (s : string) : Py.float :=
  default S754_nan (PyAscii.float_of_str s).

(** ** Facts about the builtins *)

Section SplitFacts.
Variable sep : ascii.

Lemma split_not_nil (s : string) : Py.split sep s <> [].
Proof.
  induction s as [|c rest IH]; simpl; [discriminate|].
  destruct (Ascii.eqb c sep); [discriminate|].
  destruct (Py.split sep rest); discriminate.
Qed.

(** No segment of a split holds the separator. *)
Lemma split_segments_free (s seg : string) :
  seg ∈ Py.split sep s -> Py.contains sep seg = false.
Proof.
  revert seg. induction s as [|c rest IH]; simpl; intros seg Hin.
  - apply list_elem_of_singleton in Hin. by subst.
  - destruct (Ascii.eqb c sep) eqn:Hc.
    + apply elem_of_cons in Hin as [->|Hin]; [done|by apply IH].
    + destruct (Py.split sep rest) as [|seg0 segs] eqn:Hsp.
      * by destruct (split_not_nil rest).
      * apply elem_of_cons in Hin as [->|Hin].
        -- simpl. rewrite Hc. simpl. apply IH. left.
        -- apply IH. by right.
Qed.

(** Splitting around one separator splits both sides. *)
Lemma split_app_sep (before after : string) :
  Py.split sep (before +:+ String sep after)
  = Py.split sep before ++ Py.split sep after.
Proof.
  induction before as [|c rest IH]; simpl.
  - by rewrite Ascii.eqb_refl.
  - destruct (Ascii.eqb c sep); [by rewrite IH|].
    rewrite IH. destruct (Py.split sep rest) eqn:Hsp; [|done].
    by destruct (split_not_nil rest).
Qed.

(** Two separators in a row: an empty segment, and it is the middle one
    when there are three segments. *)
Lemma split_doubled_sep (before after : string) :
  let s := before +:+ String sep (String sep after) in
  EmptyString ∈ Py.split sep s /\
  forall c m t, Py.split sep s = [c; m; t] -> m = EmptyString.
Proof.
  simpl. rewrite split_app_sep. simpl. rewrite Ascii.eqb_refl. split.
  - apply elem_of_app. right. left.
  - intros c m t Heq.
    destruct (Py.split sep before) as [|b0 [|b1 bs]] eqn:Hb.
    + by destruct (split_not_nil before).
    + simpl in Heq. by injection Heq as _ <- _.
    + simpl in Heq. destruct (Py.split sep after) as [|a0 l] eqn:Ha.
      * by destruct (split_not_nil after).
      * destruct bs; simpl in Heq; [discriminate|].
        injection Heq as _ _ Heq. by destruct bs.
Qed.
End SplitFacts.

(** [split] against [count] and [join]. *)
Section SplitLaws.
Variable sep : ascii.

(** A string without the separator is its own single segment. *)
Lemma split_free (s : string) :
  Py.contains sep s = false -> Py.split sep s = [s].
Proof.
  induction s as [|c rest IH]; simpl; [done|].
  destruct (Ascii.eqb c sep); [done|]. simpl. intros Hfree. by rewrite IH.
Qed.

(** One segment more than there are separators. *)
Lemma split_length (s : string) :
  length (Py.split sep s) = S (count_char sep s).
Proof.
  induction s as [|c rest IH]; simpl; [done|].
  destruct (Ascii.eqb c sep); simpl; [by rewrite IH|].
  destruct (Py.split sep rest); simpl in *; [discriminate|done].
Qed.



End SplitLaws.

(** The comparisons of binary64: [<] is irreflexive, and on values other
    than NaN [<=] is a total preorder that [<] refines. *)
Section FloatOrder.

Ltac order_cases :=
  repeat match goal with
    | |- context [Z.compare ?a ?b] => destruct (Z.compare_spec a b)
    | |- context [Pos.compare_cont Eq ?a ?b] =>
        let Hc := fresh in
        pose proof (Pos.compare_spec a b) as Hc;
        unfold Pos.compare in Hc; destruct Hc
    end;
  simpl; try discriminate; try reflexivity; try lia.

Ltac float_cases x :=
  let m := fresh "m" in
  let e := fresh "e" in
  destruct x as [[|]|[|]| |[|] m e]; simpl; try discriminate; try reflexivity.

Lemma float_lt_irrefl (x : Py.float) : Py.float_lt x x = false.
Proof.
  unfold Py.float_lt, SFltb, SFcompare. float_cases x;
    order_cases.
Qed.

Lemma float_le_refl (x : Py.float) :
  Py.is_nan x = false -> Py.float_le x x = true.
Proof.
  unfold Py.float_le, SFleb, SFcompare. float_cases x; intros _;
    order_cases.
Qed.

Lemma float_lt_le (x y : Py.float) :
  Py.float_lt x y = true -> Py.float_le x y = true.
Proof.
  unfold Py.float_lt, Py.float_le, SFltb, SFleb.
  destruct (SFcompare x y) as [[]|]; done.
Qed.

Lemma float_not_lt_le (x y : Py.float) :
  Py.is_nan x = false -> Py.is_nan y = false ->
  Py.float_lt x y = false -> Py.float_le y x = true.
Proof.
  unfold Py.float_lt, Py.float_le, SFltb, SFleb, SFcompare.
  float_cases x; float_cases y; intros _ _; order_cases.
Qed.

Lemma float_le_trans (x y z : Py.float) :
  Py.float_le x y = true -> Py.float_le y z = true -> Py.float_le x z = true.
Proof.
  unfold Py.float_le, SFleb, SFcompare.
  float_cases x; float_cases y; float_cases z; order_cases.
Qed.

Lemma float_le_not_nan (x y : Py.float) :
  Py.float_le x y = true -> Py.is_nan x = false /\ Py.is_nan y = false.
Proof.
  unfold Py.float_le, SFleb, SFcompare.
  float_cases x; float_cases y; done.
Qed.

Lemma float_lt_asym (x y : Py.float) :
  Py.float_lt x y = true -> Py.float_lt y x = false.
Proof.
  unfold Py.float_lt, SFltb, SFcompare.
  float_cases x; float_cases y; order_cases.
Qed.

Lemma float_lt_trans (x y z : Py.float) :
  Py.float_lt x y = true -> Py.float_lt y z = true -> Py.float_lt x z = true.
Proof.
  unfold Py.float_lt, SFltb, SFcompare.
  float_cases x; float_cases y; float_cases z; order_cases.
Qed.

End FloatOrder.

(** [min] and [max] return an item of the list; when no item is NaN it is
    below, respectively above, every item. *)
Section MinMax.

Lemma min_fold (others : list Py.float) (best : Py.float) :
  let m := Py.min best others in
  (m = best \/ m ∈ others) /\
  (no_nan (best :: others) ->
   Py.float_le m best = true /\
   forall x, x ∈ others -> Py.float_le m x = true).
Proof.
  revert best. induction others as [|item rest IH]; intros best; simpl.
  - split; [by left|]. intros Hn. apply Forall_cons in Hn as [Hb _].
    split; [by apply float_le_refl|]. intros x Hx. by apply elem_of_nil in Hx.
  - unfold Py.min in *. simpl.
    destruct (Py.float_lt item best) eqn:Hlt.
    + destruct (IH item) as [Hmem Hord]. split.
      * destruct Hmem as [->|Hmem]; right; [left|by right].
      * intros Hn. apply Forall_cons in Hn as [Hb Hn].
        destruct (Hord Hn) as [Hle Hall]. split.
        -- eapply float_le_trans; [exact Hle|by apply float_lt_le].
        -- intros x Hx. apply elem_of_cons in Hx as [->|Hx]; auto.
    + destruct (IH best) as [Hmem Hord]. split.
      * destruct Hmem as [->|Hmem]; [by left|right; by right].
      * intros Hn. apply Forall_cons in Hn as [Hb Hn].
        pose proof Hn as Hn'. apply Forall_cons in Hn' as [Hi Hr].
        destruct Hord as [Hle Hall]; [by apply Forall_cons|]. split; [done|].
        intros x Hx. apply elem_of_cons in Hx as [->|Hx]; auto.
        eapply float_le_trans; [exact Hle|]. by apply float_not_lt_le.
Qed.

Lemma max_fold (others : list Py.float) (best : Py.float) :
  let m := Py.max best others in
  (m = best \/ m ∈ others) /\
  (no_nan (best :: others) ->
   Py.float_le best m = true /\
   forall x, x ∈ others -> Py.float_le x m = true).
Proof.
  revert best. induction others as [|item rest IH]; intros best; simpl.
  - split; [by left|]. intros Hn. apply Forall_cons in Hn as [Hb _].
    split; [by apply float_le_refl|]. intros x Hx. by apply elem_of_nil in Hx.
  - unfold Py.max, Py.float_gt in *. simpl.
    destruct (SFltb best item) eqn:Hlt.
    + destruct (IH item) as [Hmem Hord]. split.
      * destruct Hmem as [->|Hmem]; right; [left|by right].
      * intros Hn. apply Forall_cons in Hn as [Hb Hn].
        destruct (Hord Hn) as [Hle Hall]. split.
        -- eapply float_le_trans; [by apply float_lt_le|exact Hle].
        -- intros x Hx. apply elem_of_cons in Hx as [->|Hx]; auto.
    + destruct (IH best) as [Hmem Hord]. split.
      * destruct Hmem as [->|Hmem]; [by left|right; by right].
      * intros Hn. apply Forall_cons in Hn as [Hb Hn].
        pose proof Hn as Hn'. apply Forall_cons in Hn' as [Hi Hr].
        destruct Hord as [Hle Hall]; [by apply Forall_cons|]. split; [done|].
        intros x Hx. apply elem_of_cons in Hx as [->|Hx]; auto.
        eapply float_le_trans; [|exact Hle]. by apply float_not_lt_le.
Qed.

End MinMax.

(** ** Facts about the registries and the loops *)

Lemma uniform_schema_column (first : Row) (rest : Dataset) (column : string) :
  uniform_schema (first :: rest) -> is_Some (first !! column) ->
  forall row : Row, row ∈ first :: rest -> is_Some (row !! column).
Proof.
  intros Hu Hc row Hin. apply elem_of_dom.
  unfold uniform_schema in Hu. rewrite Forall_forall in Hu.
  specialize (Hu row Hin). rewrite Forall_forall in Hu.
  rewrite (Hu first); [by apply elem_of_dom|left].
Qed.

Section Loops.
Context `{PyBuiltins}.

Lemma filter_loop_spec filter_op column value (rows acc : Dataset) :
  (forall row : Row, row ∈ rows -> is_Some (row !! column)) ->
  filter_loop filter_op column value rows acc
  = Return (acc ++ List.filter (row_matches filter_op column value) rows).
Proof.
  revert acc. induction rows as [|row rest IH]; intros acc Hcol; simpl.
  - by rewrite app_nil_r.
  - destruct (Hcol row) as [cell Hcell]; [left|].
    unfold getitem, row_matches. rewrite Hcell. simpl.
    destruct (apply filter_op cell value).
    + rewrite IH; [by rewrite <- app_assoc|]. intros r Hr. apply Hcol. by right.
    + apply IH. intros r Hr. apply Hcol. by right.
Qed.

Lemma numeric_loop_spec column (rows : Dataset) (acc : list Py.float) :
  (forall row : Row, row ∈ rows -> is_Some (row !! column)) ->
  numeric_loop column rows acc = Return (acc ++ numeric_cells column rows).
Proof.
  revert acc. induction rows as [|row rest IH]; intros acc Hcol; simpl.
  - by rewrite app_nil_r.
  - destruct (Hcol row) as [cell Hcell]; [left|].
    unfold getitem, numeric_cells. rewrite Hcell. simpl.
    destruct (float_of_str cell).
    + rewrite IH; [by rewrite <- app_assoc|]. intros r Hr. apply Hcol. by right.
    + apply IH. intros r Hr. apply Hcol. by right.
Qed.

(** A row without the column stops either loop with a [KeyError]. *)
Lemma filter_loop_missing filter_op column value (row : Row) rest acc :
  row !! column = None ->
  filter_loop filter_op column value (row :: rest) acc
  = Raise (KeyError column).
Proof. intros Hn. simpl. unfold getitem. by rewrite Hn. Qed.

Lemma filter_sublist {A : Type} (p : A -> bool) (l : list A) :
  sublist (List.filter p l) l.
Proof.
  induction l as [|x l IH]; simpl; [constructor|].
  destruct (p x); by constructor.
Qed.

Lemma filter_none {A : Type} (p : A -> bool) (l : list A) :
  (forall x, x ∈ l -> p x = false) -> List.filter p l = [].
Proof.
  induction l as [|x l IH]; intros Hnone; simpl; [done|].
  rewrite (Hnone x) by left. apply IH. intros y Hy. apply Hnone. by right.
Qed.

(** Every canonical name of [operator_map] is a key of [operators]. *)
Lemma operator_map_canonical (token canonical : string) :
  operator_map !! token = Some canonical ->
  is_Some (operators !! canonical).
Proof.
  unfold operator_map.
  repeat (rewrite lookup_insert; case_decide;
          [intros [= <-]; vm_compute; eauto|]).
  by rewrite lookup_empty.
Qed.

(** A token of [operator_map] free of ['='] is one of five. *)
Lemma operator_map_token_free (token canonical : string) :
  operator_map !! token = Some canonical ->
  Py.contains "=" token = false ->
  token ∈ ["eq"; ">"; "gt"; "<"; "lt"].
Proof.
  unfold operator_map.
  repeat (rewrite lookup_insert; case_decide;
          [subst token; intros _ Hc;
           first [discriminate Hc | set_solver]|]).
  by rewrite lookup_empty.
Qed.

End Loops.

(** ** The messages are told apart by their first letters *)

Lemma msg_unknown_column_not_function (column function : string) :
  msg_unknown_column column <> msg_unsupported_function function.
Proof. unfold msg_unknown_column, msg_unsupported_function. simpl. discriminate. Qed.

Lemma msg_unknown_column_not_numeric (column column' : string) :
  msg_unknown_column column <> msg_no_numeric column'.
Proof. unfold msg_unknown_column, msg_no_numeric. simpl. discriminate. Qed.

Lemma msg_function_not_numeric (function column : string) :
  msg_unsupported_function function <> msg_no_numeric column.
Proof. unfold msg_unsupported_function, msg_no_numeric. simpl. discriminate. Qed.

(** ** Properties of the specification *)

Section Claims.
Context `{PyBuiltins}.

(** First half of C1: on a dataset with a first row, a column that is not
    a key of that row is reported by name, whatever follows. *)
Lemma filter_data_unknown_column (first : Row) (rest : Dataset)
    (column operator value : string) :
  first !! column = None ->
  filter_data (first :: rest) column operator value
  = Raise (ValueError (msg_unknown_column column)).
Proof. intros Hn. unfold filter_data. simpl. by rewrite Hn. Qed.

(** C1, on the empty dataset: [filter_data] subscripts [data[0]] before
    anything else, so filtering an empty dataset raises [IndexError] for
    every column, operator and value; the column check is not skipped and
    an error does surface. *)
Theorem filter_data_empty_dataset (column operator value : string) :
  filter_data [] column operator value = Raise IndexError.
Proof. reflexivity. Qed.

(** C2: on the empty dataset [aggregate_data] returns 0.0 for every column
    name and every function token, known or not: the emptiness test comes
    before the column and function checks. *)
Theorem aggregate_data_empty_dataset (column function : string) :
  aggregate_data [] column function = Return Py.float_zero.
Proof. reflexivity. Qed.

(** C3: in [operator_map], [>=] has the canonical name of [>], [==] that
    of [eq] and [<=] that of [<]; the operators registered under [gt] and
    [lt] are the strict comparisons: on two operands that parse to the
    same number both answer false. *)
Theorem operator_aliases_strict :
  (operator_map !! ">=" = operator_map !! ">" /\
   operator_map !! ">" = Some "gt") /\
  (operator_map !! "==" = operator_map !! "eq" /\
   operator_map !! "eq" = Some "eq") /\
  (operator_map !! "<=" = operator_map !! "<" /\
   operator_map !! "<" = Some "lt") /\
  (operators !! "eq" = Some EqualsOperator /\
   operators !! "gt" = Some GreaterOperator /\
   operators !! "lt" = Some LessOperator) /\
  (forall (value target : string) (x : Py.float),
      float_of_str value = Some x -> float_of_str target = Some x ->
      apply GreaterOperator value target = false /\
      apply LessOperator value target = false).
Proof.
  do 4 (split; [by vm_compute|]).
  intros value target x Hv Ht. simpl. rewrite Hv, Ht.
  unfold Py.float_gt. fold (Py.float_lt x x).
  by rewrite float_lt_irrefl.
Qed.

(** C4: [parse_filter] on the empty string returns the tuple of three
    [None]; on a non-empty string that does not split into three segments
    it raises the format error; on three segments with a middle one
    outside [operator_map] it raises the unsupported-operator error
    naming that segment; otherwise it returns three strings, the second
    a key of [operators].  No result is partly filled. *)
Theorem parse_filter_cases (s : string) :
  (s = "" -> parse_filter s = Return (None, None, None)) /\
  (s <> "" -> length (Py.split "=" s) <> 3%nat ->
   parse_filter s = Raise (ValueError msg_filter_format)) /\
  (forall column operator value : string,
      Py.split "=" s = [column; operator; value] ->
      operator_map !! operator = None ->
      parse_filter s = Raise (ValueError (msg_unsupported_operator operator))) /\
  (forall column operator value canonical : string,
      Py.split "=" s = [column; operator; value] ->
      operator_map !! operator = Some canonical ->
      parse_filter s = Return (Some (str_strip column), Some canonical,
                               Some (str_strip value)) /\
      is_Some (operators !! canonical)) /\
  (forall r, parse_filter s = Return r ->
      r = (None, None, None) \/
      exists column canonical value : string,
        r = (Some column, Some canonical, Some value) /\
        is_Some (operators !! canonical)).
Proof.
  unfold parse_filter. split; [|split; [|split; [|split]]].
  - by intros ->.
  - intros Hne Hlen. apply String.eqb_neq in Hne. rewrite Hne.
    destruct (Py.split "=" s) as [|a [|b [|c [|d l]]]]; try done.
  - intros column operator value Hsp Hop.
    destruct (String.eqb_spec s "") as [->|_]; [discriminate Hsp|].
    by rewrite Hsp, Hop.
  - intros column operator value canonical Hsp Hop. split.
    + destruct (String.eqb_spec s "") as [->|_]; [discriminate Hsp|].
      by rewrite Hsp, Hop.
    + by apply operator_map_canonical with operator.
  - intros r. destruct (String.eqb s "").
    + intros [= <-]. by left.
    + destruct (Py.split "=" s) as [|a [|b [|c [|d l]]]]; try done.
      destruct (operator_map !! b) as [canonical|] eqn:Hop; [|done].
      intros [= <-]. right. eexists _, _, _. split; [done|].
      by apply operator_map_canonical with b.
Qed.

(** C7: when [float] rejects the value or the target, [GreaterOperator]
    and [LessOperator] answer false ([apply] is total: nothing is raised);
    when both parse, they answer the binary64 comparisons [>] and [<] of
    the two numbers. *)
Theorem numeric_operators_apply (value target : string) :
  (float_of_str value = None \/ float_of_str target = None ->
   apply GreaterOperator value target = false /\
   apply LessOperator value target = false) /\
  (forall v t : Py.float,
      float_of_str value = Some v -> float_of_str target = Some t ->
      apply GreaterOperator value target = Py.float_gt v t /\
      apply LessOperator value target = Py.float_lt v t).
Proof.
  split.
  - intros [Hv|Ht]; simpl.
    + by rewrite Hv.
    + rewrite Ht. by destruct (float_of_str value).
  - intros v t Hv Ht. simpl. by rewrite Hv, Ht.
Qed.

(** C8: [EqualsOperator] compares the lowercase forms of the two operands
    as they are given, and is symmetric. *)
Theorem equals_operator_apply (value target : string) :
  apply EqualsOperator value target
  = bool_decide (str_lower value = str_lower target) /\
  apply EqualsOperator value target = apply EqualsOperator target value.
Proof.
  simpl. split.
  - destruct (String.eqb_spec (str_lower value) (str_lower target)) as [He|Hn].
    + by rewrite bool_decide_eq_true_2.
    + by rewrite bool_decide_eq_false_2.
  - apply String.eqb_sym.
Qed.

(** C10: no segment of a split on ['='] holds ['=']; hence, whenever
    [parse_filter] returns a filter, the middle segment it looked up is
    one of [eq], [>], [gt], [<], [lt], never [==], [>=] or [<=].  The
    string [price=>=500] has the three segments [price], [>], [500] and
    is parsed through the entry [>].  A string holding [==] has an empty
    segment, in the middle when there are three, so the token looked up
    is the empty one and never [==]. *)
Theorem parse_filter_aliases_unreachable :
  (forall s segment : string,
      segment ∈ Py.split "=" s -> Py.contains "=" segment = false) /\
  (forall s column canonical value : string,
      parse_filter s = Return (Some column, Some canonical, Some value) ->
      exists c m t : string,
        Py.split "=" s = [c; m; t] /\
        Py.contains "=" m = false /\
        m ∈ ["eq"; ">"; "gt"; "<"; "lt"] /\
        (m ∉ ["=="; ">="; "<="]) /\
        operator_map !! m = Some canonical) /\
  (Py.split "=" "price=>=500" = ["price"; ">"; "500"] /\
   parse_filter "price=>=500"
   = Return (Some (str_strip "price"), Some "gt", Some (str_strip "500"))) /\
  (forall before after : string,
      let s := before +:+ "==" +:+ after in
      "" ∈ Py.split "=" s /\
      (forall c m t : string, Py.split "=" s = [c; m; t] -> m = "") /\
      (forall c m t : string, Py.split "=" s = [c; m; t] ->
         parse_filter s = Raise (ValueError (msg_unsupported_operator "")))).
Proof.
  split; [|split; [|split]].
  - intros s segment. apply split_segments_free.
  - intros s column canonical value. unfold parse_filter.
    destruct (String.eqb s ""); [done|].
    destruct (Py.split "=" s) as [|c [|m [|t [|d l]]]] eqn:Hsp; try done.
    destruct (operator_map !! m) as [k|] eqn:Hop; [|done].
    intros [= _ <- _]. exists c, m, t.
    assert (Py.contains "=" m = false) as Hfree.
    { apply split_segments_free with s. rewrite Hsp. set_solver. }
    pose proof (operator_map_token_free m k Hop Hfree) as Hin.
    repeat split; try done.
    intros Hbad. set_unfold. destruct Hbad as [->|[->|[->|[]]]]; discriminate.
  - split; [reflexivity|]. reflexivity.
  - intros before after s.
    destruct (split_doubled_sep "=" before after) as [Hin Hmid].
    repeat split; try done.
    intros c m t Hsp. pose proof (Hmid c m t Hsp) as ->.
    unfold parse_filter. fold s. rewrite Hsp.
    destruct (String.eqb_spec s "") as [He|_]; [|done].
    rewrite He in Hsp. discriminate.
Qed.

(** [aggregate_data] once past the emptiness test, with its loop read as
    the list of numeric cells. *)
Lemma aggregate_data_unfold (first : Row) (rest : Dataset)
    (column function : string) :
  uniform_schema (first :: rest) ->
  aggregate_data (first :: rest) column function
  = match first !! column with
    | None => Raise (ValueError (msg_unknown_column column))
    | Some _ =>
        match aggregation_functions !! function with
        | None => Raise (ValueError (msg_unsupported_function function))
        | Some agg_func =>
            match numeric_cells column (first :: rest) with
            | [] => Raise (ValueError (msg_no_numeric column))
            | x :: xs => Return (calculate agg_func (x :: xs))
            end
        end
    end.
Proof.
  intros Hu. unfold aggregate_data.
  destruct (first !! column) as [cell0|] eqn:Hfirst; [|done].
  destruct (aggregation_functions !! function) as [agg_func|]; [|done].
  rewrite numeric_loop_spec.
  - rewrite app_nil_l. by destruct (numeric_cells column (first :: rest)).
  - apply (uniform_schema_column first rest column Hu). by eexists.
Qed.

(** C5: on a dataset with a first row and a uniform schema,
    [aggregate_data] raises the unknown-column error exactly when the
    column is not a key of the first row; otherwise the
    unsupported-function error exactly when the token is not a key of
    [aggregation_functions]; otherwise, the cells that [float] rejects
    being skipped, the no-numeric-data error naming the column exactly
    when no number remains, and the reduction of the numbers when some
    do.  [parse_aggregation] hands over the lowercased token of any
    two-segment string without looking it up. *)
Theorem aggregate_data_error_order (first : Row) (rest : Dataset)
    (column function : string) :
  uniform_schema (first :: rest) ->
  let data := first :: rest in
  let outcome := aggregate_data data column function in
  (outcome = Raise (ValueError (msg_unknown_column column))
   <-> first !! column = None) /\
  (outcome = Raise (ValueError (msg_unsupported_function function))
   <-> is_Some (first !! column) /\
       aggregation_functions !! function = None) /\
  (outcome = Raise (ValueError (msg_no_numeric column))
   <-> is_Some (first !! column) /\
       is_Some (aggregation_functions !! function) /\
       numeric_cells column data = []) /\
  (forall agg_func : AggregationFunction,
      is_Some (first !! column) ->
      aggregation_functions !! function = Some agg_func ->
      numeric_cells column data <> [] ->
      outcome = Return (calculate agg_func (numeric_cells column data))) /\
  (forall agg_str column_part function_part : string,
      Py.split "=" agg_str = [column_part; function_part] ->
      parse_aggregation agg_str
      = Return (Some (str_strip column_part),
                Some (str_lower (str_strip function_part)))).
Proof.
  intros Hu data outcome.
  pose proof (msg_unknown_column_not_function column function) as D1.
  pose proof (msg_unknown_column_not_numeric column column) as D2.
  pose proof (msg_function_not_numeric function column) as D3.
  pose proof (aggregate_data_unfold first rest column function Hu) as Heq.
  fold data outcome in Heq. clearbody outcome.
  set (cells := numeric_cells column data) in *. clearbody cells.
  destruct (first !! column) as [cell0|];
    [destruct (aggregation_functions !! function) as [agg_func|];
     [destruct cells as [|x xs]|]|];
    subst outcome; (split; [|split; [|split; [|split]]]);
    try (split; [intros [= ?]; done|]);
    try (split; [done|]);
    try done.
  all: try (intros (? & ? & ?); done).
  all: try (intros (? & ?); done).
  all: try (intros ([? ?] & ?); done).
  all: try (intros (? & [? ?] & ?); done).
  all: try by (repeat split; eauto).
  all: try by (intros ? ? [= <-] ?).
  all: try (intros agg_str column_part function_part Hsp;
            unfold parse_aggregation; rewrite Hsp;
            destruct (String.eqb_spec agg_str "") as [->|_];
            [discriminate|done]).
Qed.

(** [filter_data] once [data[0]] has been read. *)
Lemma filter_data_unfold (first : Row) (rest : Dataset)
    (column operator value : string) :
  filter_data (first :: rest) column operator value
  = match first !! column with
    | None => Raise (ValueError (msg_unknown_column column))
    | Some _ =>
        match operators !! operator with
        | None => Raise (ValueError (msg_unsupported_operator operator))
        | Some filter_op =>
            filter_loop filter_op column value (first :: rest) []
        end
    end.
Proof. reflexivity. Qed.

(** C6: on a dataset of uniform schema whose first row has the column,
    and for a registered operator, [filter_data] returns exactly the rows
    whose cell satisfies the operator against the target, in the order
    of the input; a result without rows is returned like any other. *)
Theorem filter_data_subsequence (first : Row) (rest : Dataset)
    (column operator value : string) (filter_op : FilterOperator) :
  uniform_schema (first :: rest) ->
  is_Some (first !! column) ->
  operators !! operator = Some filter_op ->
  let data := first :: rest in
  let kept := List.filter (row_matches filter_op column value) data in
  filter_data data column operator value = Return kept /\
  sublist kept data /\
  (forall row : Row,
      row ∈ kept <->
      row ∈ data /\
      exists cell : string,
        row !! column = Some cell /\ apply filter_op cell value = true) /\
  ((forall row : Row, row ∈ data ->
                      row_matches filter_op column value row = false) ->
   filter_data data column operator value = Return []).
Proof.
  intros Hu [cell0 Hfirst] Hop data kept.
  assert (filter_data data column operator value = Return kept) as Hrun.
  { subst data. rewrite filter_data_unfold, Hfirst, Hop.
    rewrite filter_loop_spec; [done|].
    apply (uniform_schema_column first rest column Hu). by eexists. }
  split; [done|]. split; [apply filter_sublist|]. split.
  - intros row. subst kept. rewrite !list_elem_of_In, filter_In.
    unfold row_matches. destruct (row !! column) as [cell|].
    + split; [intros [? ?]; eauto|]. by intros [? (c & [= <-] & ?)].
    + split; [by intros [? ?]|]. by intros [? (c & ? & ?)].
  - intros Hnone. rewrite Hrun. f_equal. by apply filter_none.
Qed.

(** C9, as the code has it: on the empty list the three functions return
    0.0; on a non-empty list [AverageFunction] returns the sum divided by
    the count, [MinFunction] and [MaxFunction] return an item of the
    list, and that item is the minimum, respectively the maximum, of the
    list when no item is NaN. *)
Theorem calculate_reductions (values : list Py.float) :
  (values = [] ->
   calculate AverageFunction values = Py.float_zero /\
   calculate MinFunction values = Py.float_zero /\
   calculate MaxFunction values = Py.float_zero) /\
  (values <> [] ->
   calculate AverageFunction values = arithmetic_mean values /\
   calculate MinFunction values ∈ values /\
   calculate MaxFunction values ∈ values /\
   (no_nan values ->
    is_minimum (calculate MinFunction values) values /\
    is_maximum (calculate MaxFunction values) values)).
Proof.
  split; [by intros ->|]. destruct values as [|v vs]; [done|]. intros _.
  destruct (min_fold vs v) as [Hmin_in Hmin].
  destruct (max_fold vs v) as [Hmax_in Hmax].
  assert (calculate MinFunction (v :: vs) ∈ v :: vs) as Hi.
  { simpl. destruct Hmin_in as [->|?]; [left|by right]. }
  assert (calculate MaxFunction (v :: vs) ∈ v :: vs) as Ha.
  { simpl. destruct Hmax_in as [->|?]; [left|by right]. }
  split; [done|]. split; [done|]. split; [done|]. intros Hn.
  destruct (Hmin Hn) as [Hle_min Hall_min].
  destruct (Hmax Hn) as [Hle_max Hall_max].
  split; (split; [done|]); simpl; intros x Hx;
    apply elem_of_cons in Hx as [->|Hx]; auto.
Qed.

End Claims.

(** ** Further facts: what the loops and the two operations return *)

Section Outcomes.
Context `{PyBuiltins}.

(** Either every row has the column or some row lacks it. *)
Lemma column_everywhere_or_missing (column : string) (rows : Dataset) :
  Forall (fun row : Row => is_Some (row !! column)) rows \/
  Exists (fun row : Row => row !! column = None) rows.
Proof.
  induction rows as [|row rest IH]; [left; constructor|].
  destruct (row !! column) as [cell|] eqn:Hrow.
  - destruct IH as [Hall|Hex]; [left|right].
    + constructor; [by rewrite Hrow|done].
    + by apply Exists_cons_tl.
  - right. by apply Exists_cons_hd.
Qed.

Lemma filter_loop_key_error filter_op column value (rows acc : Dataset) :
  Exists (fun row : Row => row !! column = None) rows ->
  filter_loop filter_op column value rows acc = Raise (KeyError column).
Proof.
  intros Hex. revert acc.
  induction Hex as [row rest Hnone|row rest Hex IH]; intros acc;
    cbn [filter_loop]; unfold getitem.
  - by rewrite Hnone.
  - destruct (row !! column) as [cell|]; [|done].
    change (Return cell ≫= ?k) with (k cell). cbv beta.
    destruct (apply filter_op cell value); apply IH.
Qed.

Lemma numeric_loop_key_error column (rows : Dataset) (acc : list Py.float) :
  Exists (fun row : Row => row !! column = None) rows ->
  numeric_loop column rows acc = Raise (KeyError column).
Proof.
  intros Hex. revert acc.
  induction Hex as [row rest Hnone|row rest Hex IH]; intros acc;
    cbn [numeric_loop]; unfold getitem.
  - by rewrite Hnone.
  - destruct (row !! column) as [cell|]; [|done].
    change (Return cell ≫= ?k) with (k cell). cbv beta.
    destruct (float_of_str cell); apply IH.
Qed.

(** A loop that returns has met the column in every row. *)
Lemma filter_loop_inv filter_op column value (rows acc kept : Dataset) :
  filter_loop filter_op column value rows acc = Return kept ->
  Forall (fun row : Row => is_Some (row !! column)) rows /\
  kept = acc ++ List.filter (row_matches filter_op column value) rows.
Proof.
  intros Hrun. destruct (column_everywhere_or_missing column rows) as [Hall|Hex].
  - split; [done|]. rewrite filter_loop_spec in Hrun.
    + by injection Hrun as <-.
    + by apply Forall_forall.
  - by rewrite filter_loop_key_error in Hrun.
Qed.

Lemma numeric_loop_inv column (rows : Dataset) (acc values : list Py.float) :
  numeric_loop column rows acc = Return values ->
  Forall (fun row : Row => is_Some (row !! column)) rows /\
  values = acc ++ numeric_cells column rows.
Proof.
  intros Hrun. destruct (column_everywhere_or_missing column rows) as [Hall|Hex].
  - split; [done|]. rewrite numeric_loop_spec in Hrun.
    + by injection Hrun as <-.
    + by apply Forall_forall.
  - by rewrite numeric_loop_key_error in Hrun.
Qed.

(** [aggregate_data] once past the emptiness test, loop left as it is. *)
Lemma aggregate_data_step (first : Row) (rest : Dataset)
    (column function : string) :
  aggregate_data (first :: rest) column function
  = match first !! column with
    | None => Raise (ValueError (msg_unknown_column column))
    | Some _ =>
        match aggregation_functions !! function with
        | None => Raise (ValueError (msg_unsupported_function function))
        | Some agg_func =>
            numeric_values ← numeric_loop column (first :: rest) [];
            match numeric_values with
            | [] => Raise (ValueError (msg_no_numeric column))
            | _ :: _ => Return (calculate agg_func numeric_values)
            end
        end
    end.
Proof. reflexivity. Qed.

(** A filter that returns: the dataset had a first row with the column,
    the operator was registered, every row had the column, and the rows
    returned are those that match. *)
Lemma filter_data_inv (data kept : Dataset) (column operator value : string) :
  filter_data data column operator value = Return kept ->
  exists (first : Row) (rest : Dataset) (filter_op : FilterOperator),
    data = first :: rest /\
    operators !! operator = Some filter_op /\
    Forall (fun row : Row => is_Some (row !! column)) data /\
    kept = List.filter (row_matches filter_op column value) data.
Proof.
  destruct data as [|first rest]; [done|]. rewrite filter_data_unfold.
  destruct (first !! column) as [cell|]; [|done].
  destruct (operators !! operator) as [filter_op|]; [|done].
  intros Hrun. apply filter_loop_inv in Hrun as [Hall ->].
  by exists first, rest, filter_op.
Qed.

(** An aggregation of a dataset with a first row that returns: the
    function was registered, every row had the column, at least one cell
    was a number, and the value is the reduction of those numbers. *)
Lemma aggregate_data_inv (first : Row) (rest : Dataset)
    (column function : string) (value : Py.float) :
  aggregate_data (first :: rest) column function = Return value ->
  exists (agg_func : AggregationFunction) (x : Py.float) (xs : list Py.float),
    aggregation_functions !! function = Some agg_func /\
    Forall (fun row : Row => is_Some (row !! column)) (first :: rest) /\
    numeric_cells column (first :: rest) = x :: xs /\
    value = calculate agg_func (x :: xs).
Proof.
  rewrite aggregate_data_step.
  destruct (first !! column) as [cell|]; [|done].
  destruct (aggregation_functions !! function) as [agg_func|]; [|done].
  destruct (numeric_loop column (first :: rest) []) as [values|e] eqn:Hloop;
    [|done].
  apply numeric_loop_inv in Hloop as [Hall ->]. rewrite app_nil_l.
  change (Return ?l ≫= ?k) with (k l). cbv beta.
  destruct (numeric_cells column (first :: rest)) as [|x xs] eqn:Hcells;
    [done|].
  intros [= <-]. by exists agg_func, x, xs.
Qed.

(** Neither operation raises [IndexError] on a dataset with a first row. *)
Lemma filter_data_no_index_error (first : Row) (rest : Dataset)
    (column operator value : string) :
  filter_data (first :: rest) column operator value <> Raise IndexError.
Proof.
  rewrite filter_data_unfold.
  destruct (first !! column) as [cell|]; [|done].
  destruct (operators !! operator) as [filter_op|]; [|done].
  destruct (column_everywhere_or_missing column (first :: rest)) as [Hall|Hex].
  - rewrite filter_loop_spec; [done|]. by apply Forall_forall.
  - by rewrite filter_loop_key_error.
Qed.

Lemma filter_filter {A : Type} (p q : A -> bool) (l : list A) :
  List.filter q (List.filter p l) = List.filter (fun x => p x && q x) l.
Proof.
  induction l as [|x l IH]; simpl; [done|].
  destruct (p x); simpl; [destruct (q x)|]; by rewrite IH.
Qed.

Lemma Forall_filter_keep {A : Type} (P : A -> Prop) (p : A -> bool)
    (l : list A) :
  Forall P l -> Forall P (List.filter p l).
Proof.
  induction 1 as [|x l Hx Hl IH]; simpl; [constructor|].
  destruct (p x); [by constructor|done].
Qed.

Lemma uniform_schema_filter (p : Row -> bool) (data : Dataset) :
  uniform_schema data -> uniform_schema (List.filter p data).
Proof.
  unfold uniform_schema. intros Hu. apply Forall_filter_keep.
  eapply Forall_impl; [exact Hu|]. intros r1 Hr1. by apply Forall_filter_keep.
Qed.

Lemma numeric_loop_app column (rows rows' : Dataset) (acc : list Py.float) :
  numeric_loop column (rows ++ rows') acc
  = numeric_loop column rows acc ≫= numeric_loop column rows'.
Proof.
  revert acc. induction rows as [|row rest IH]; intros acc; [done|].
  rewrite <- app_comm_cons. cbn [numeric_loop]. unfold getitem.
  destruct (row !! column) as [cell|]; [|done].
  change (Return cell ≫= ?k) with (k cell). cbv beta.
  destruct (float_of_str cell); apply IH.
Qed.

(** The errors of the two operations on a dataset with a first row. *)
Lemma filter_data_errors (first : Row) (rest : Dataset)
    (column operator value : string) (e : exn) :
  filter_data (first :: rest) column operator value = Raise e ->
  e = ValueError (msg_unknown_column column) \/
  (first !! column <> None /\
   e = ValueError (msg_unsupported_operator operator) /\
   operators !! operator = None) \/
  (e = KeyError column /\ first !! column <> None /\
   Exists (fun row : Row => row !! column = None) (first :: rest)).
Proof.
  rewrite filter_data_unfold.
  destruct (first !! column) as [cell|]; [|intros [= <-]; by left].
  destruct (operators !! operator) as [filter_op|];
    [|intros [= <-]; right; by left].
  destruct (column_everywhere_or_missing column (first :: rest)) as [Hall|Hex].
  - rewrite filter_loop_spec; [done|]. by apply Forall_forall.
  - rewrite filter_loop_key_error by done. intros [= <-]. right. by right.
Qed.

Lemma aggregate_data_errors (first : Row) (rest : Dataset)
    (column function : string) (e : exn) :
  aggregate_data (first :: rest) column function = Raise e ->
  e = ValueError (msg_unknown_column column) \/
  e = ValueError (msg_unsupported_function function) \/
  e = ValueError (msg_no_numeric column) \/
  (e = KeyError column /\ first !! column <> None /\
   Exists (fun row : Row => row !! column = None) (first :: rest)).
Proof.
  rewrite aggregate_data_step.
  destruct (first !! column) as [cell|]; [|intros [= <-]; by left].
  destruct (aggregation_functions !! function) as [agg_func|];
    [|intros [= <-]; right; by left].
  destruct (column_everywhere_or_missing column (first :: rest)) as [Hall|Hex].
  - rewrite numeric_loop_spec by (by apply Forall_forall). rewrite app_nil_l.
    destruct (numeric_cells column (first :: rest)); [|done].
    intros [= <-]. right. right. by left.
  - rewrite numeric_loop_key_error by done. intros [= <-]. by do 3 right.
Qed.

(** What the parsers return and raise on a non-empty string. *)
Lemma parse_filter_inv (s : string) r :
  s <> "" -> parse_filter s = Return r ->
  exists c m t canonical : string,
    Py.split "=" s = [c; m; t] /\
    operator_map !! m = Some canonical /\
    r = (Some (str_strip c), Some canonical, Some (str_strip t)).
Proof.
  intros Hne. unfold parse_filter. apply String.eqb_neq in Hne. rewrite Hne.
  destruct (Py.split "=" s) as [|c [|m [|t [|d l]]]]; try done.
  destruct (operator_map !! m) as [canonical|] eqn:Hop; [|done].
  intros [= <-]. by exists c, m, t, canonical.
Qed.

Lemma parse_filter_errors (s : string) (e : exn) :
  parse_filter s = Raise e ->
  e = ValueError msg_filter_format \/
  exists c m t : string,
    Py.split "=" s = [c; m; t] /\ operator_map !! m = None /\
    e = ValueError (msg_unsupported_operator m).
Proof.
  unfold parse_filter. destruct (String.eqb s ""); [done|].
  destruct (Py.split "=" s) as [|c [|m [|t [|d l]]]];
    try (intros [= <-]; by left).
  destruct (operator_map !! m) eqn:Hop; [done|].
  intros [= <-]. right. by exists c, m, t.
Qed.

Lemma parse_aggregation_inv (s : string) r :
  s <> "" -> parse_aggregation s = Return r ->
  exists c f : string,
    Py.split "=" s = [c; f] /\
    r = (Some (str_strip c), Some (str_lower (str_strip f))).
Proof.
  intros Hne. unfold parse_aggregation. apply String.eqb_neq in Hne.
  rewrite Hne. destruct (Py.split "=" s) as [|c [|f [|d l]]]; try done.
  intros [= <-]. by exists c, f.
Qed.

Lemma parse_aggregation_errors (s : string) (e : exn) :
  parse_aggregation s = Raise e -> e = ValueError msg_aggregation_format.
Proof.
  unfold parse_aggregation. destruct (String.eqb s ""); [done|].
  destruct (Py.split "=" s) as [|c [|f [|d l]]]; try done;
    by intros [= <-].
Qed.

Lemma truthy_Some (arg : option string) (s : string) :
  truthy arg = Some s -> arg = Some s /\ s <> "".
Proof.
  destruct arg as [s'|]; [|done]. simpl.
  destruct (String.eqb_spec s' "") as [->|Hne]; [done|]. by intros [= <-].
Qed.

Lemma count_char_app (c : ascii) (a b : string) :
  count_char c (a +:+ b) = (count_char c a + count_char c b)%nat.
Proof.
  induction a as [|d a IH]; simpl; [done|].
  destruct (Ascii.eqb d c); simpl; by rewrite IH.
Qed.

Lemma contains_count (c : ascii) (s : string) :
  Py.contains c s = true -> (1 <= count_char c s)%nat.
Proof.
  induction s as [|d s IH]; simpl; [done|].
  destruct (Ascii.eqb d c); simpl; [lia|done].
Qed.

End Outcomes.

(** The message of an unsupported operator against the other messages. *)
Lemma msg_unsupported_operator_inj (a b : string) :
  msg_unsupported_operator a = msg_unsupported_operator b -> a = b.
Proof. unfold msg_unsupported_operator. simpl. by intros [= Heq]. Qed.

Lemma msg_operator_not_column (operator column : string) :
  msg_unsupported_operator operator <> msg_unknown_column column.
Proof. unfold msg_unsupported_operator, msg_unknown_column. simpl. discriminate. Qed.

Lemma msg_operator_not_function (operator function : string) :
  msg_unsupported_operator operator <> msg_unsupported_function function.
Proof.
  unfold msg_unsupported_operator, msg_unsupported_function. simpl. discriminate.
Qed.

Lemma msg_operator_not_numeric (operator column : string) :
  msg_unsupported_operator operator <> msg_no_numeric column.
Proof. unfold msg_unsupported_operator, msg_no_numeric. simpl. discriminate. Qed.

Lemma msg_operator_not_format (operator : string) :
  msg_unsupported_operator operator <> msg_filter_format /\
  msg_unsupported_operator operator <> msg_aggregation_format.
Proof.
  unfold msg_unsupported_operator, msg_filter_format, msg_aggregation_format.
  simpl. split; discriminate.
Qed.

(** ** Further properties of the operations *)

Section Operations.
Context `{PyBuiltins}.

(** X1: when the first row has the column and the operator is registered,
    [filter_data] raises [KeyError] naming the column exactly when a later
    row lacks the column. *)
Theorem filter_data_missing_key (first : Row) (rest : Dataset)
    (column operator value : string) :
  is_Some (first !! column) -> is_Some (operators !! operator) ->
  filter_data (first :: rest) column operator value = Raise (KeyError column)
  <-> Exists (fun row : Row => row !! column = None) rest.
Proof.
  intros [cell Hfirst] [filter_op Hop].
  rewrite filter_data_unfold, Hfirst, Hop. split.
  - intros Hrun.
    destruct (column_everywhere_or_missing column rest) as [Hall|Hex]; [|done].
    rewrite filter_loop_spec in Hrun; [done|].
    intros row Hrow. apply elem_of_cons in Hrow as [->|Hrow]; [by eexists|].
    rewrite Forall_forall in Hall. by apply Hall.
  - intros Hex. apply filter_loop_key_error. by apply Exists_cons_tl.
Qed.

(** X2: when the first row has the column and the function is registered,
    [aggregate_data] raises [KeyError] naming the column exactly when a
    later row lacks the column, whether or not any cell is a number. *)
Theorem aggregate_data_missing_key (first : Row) (rest : Dataset)
    (column function : string) :
  is_Some (first !! column) -> is_Some (aggregation_functions !! function) ->
  aggregate_data (first :: rest) column function = Raise (KeyError column)
  <-> Exists (fun row : Row => row !! column = None) rest.
Proof.
  intros [cell Hfirst] [agg_func Hfun].
  rewrite aggregate_data_step, Hfirst, Hfun. split.
  - intros Hrun.
    destruct (column_everywhere_or_missing column rest) as [Hall|Hex]; [|done].
    rewrite numeric_loop_spec in Hrun.
    + rewrite app_nil_l in Hrun.
      by destruct (numeric_cells column (first :: rest)).
    + intros row Hrow. apply elem_of_cons in Hrow as [->|Hrow]; [by eexists|].
      rewrite Forall_forall in Hall. by apply Hall.
  - intros Hex. rewrite numeric_loop_key_error; [done|]. by apply Exists_cons_tl.
Qed.

(** X3: filtering is idempotent: a result with rows, filtered again with
    the same column, operator and value, is returned unchanged. *)
Theorem filter_data_idempotent (data : Dataset) (row : Row) (rows : Dataset)
    (column operator value : string) :
  filter_data data column operator value = Return (row :: rows) ->
  filter_data (row :: rows) column operator value = Return (row :: rows).
Proof.
  intros Hrun.
  apply filter_data_inv in Hrun as (first & rest & filter_op & -> & Hop & Hall & Hkept).
  assert (Forall (fun r : Row => is_Some (r !! column)) (row :: rows)) as Hall'.
  { rewrite Hkept. by apply Forall_filter_keep. }
  pose proof Hall' as Hrow. apply Forall_cons in Hrow as [[cell Hcell] _].
  rewrite filter_data_unfold, Hcell, Hop, filter_loop_spec
    by (by apply Forall_forall).
  rewrite app_nil_l, Hkept, filter_filter. f_equal.
  apply filter_ext. intros r. by destruct (row_matches filter_op column value r).
Qed.

(** X4: two filters in a row keep, in the order of the input, the rows
    that satisfy both conditions; so the order of two filters does not
    matter for what is kept. *)
Theorem filter_data_twice (data kept kept' : Dataset)
    (column operator value column' operator' value' : string) :
  filter_data data column operator value = Return kept ->
  filter_data kept column' operator' value' = Return kept' ->
  exists filter_op filter_op' : FilterOperator,
    operators !! operator = Some filter_op /\
    operators !! operator' = Some filter_op' /\
    kept' = List.filter
              (fun row => row_matches filter_op column value row
                          && row_matches filter_op' column' value' row) data.
Proof.
  intros Hrun Hrun'.
  apply filter_data_inv in Hrun as (first & rest & filter_op & -> & Hop & _ & ->).
  apply filter_data_inv in Hrun' as (first' & rest' & filter_op' & _ & Hop' & _ & ->).
  exists filter_op, filter_op'. by rewrite filter_filter.
Qed.

(** X5: filtering keeps the invariant of the dataset: the rows returned
    from a dataset of uniform schema have a uniform schema, all have the
    filter column, and are no more than the rows given. *)
Theorem filter_data_keeps_schema (data kept : Dataset)
    (column operator value : string) :
  uniform_schema data ->
  filter_data data column operator value = Return kept ->
  uniform_schema kept /\
  Forall (fun row : Row => is_Some (row !! column)) kept /\
  (length kept <= length data)%nat.
Proof.
  intros Hu Hrun.
  apply filter_data_inv in Hrun as (first & rest & filter_op & -> & _ & Hall & ->).
  set (p := row_matches filter_op column value).
  split; [|split].
  - by apply uniform_schema_filter.
  - by apply Forall_filter_keep.
  - apply sublist_length, filter_sublist.
Qed.

(** X6: [GreaterOperator] on (value, target) answers what [LessOperator]
    answers on (target, value), and the two never both hold of the same
    pair. *)
Theorem greater_less_duality (value target : string) :
  apply GreaterOperator value target = apply LessOperator target value /\
  apply GreaterOperator value target && apply LessOperator value target = false.
Proof.
  simpl. destruct (float_of_str value) as [v|], (float_of_str target) as [t|];
    try done.
  split; [done|]. unfold Py.float_gt. fold (Py.float_lt t v) (Py.float_lt v t).
  destruct (Py.float_lt t v) eqn:Hlt; [|done].
  by rewrite (float_lt_asym t v Hlt).
Qed.

(** X7: [GreaterOperator] and [LessOperator] are strict orders on cells:
    no cell is above itself, two cells are not each above the other, and
    above composes. *)
Theorem numeric_operators_strict_order (filter_op : FilterOperator)
    (a b c : string) :
  filter_op <> EqualsOperator ->
  apply filter_op a a = false /\
  (apply filter_op a b = true -> apply filter_op b a = false) /\
  (apply filter_op a b = true -> apply filter_op b c = true ->
   apply filter_op a c = true).
Proof.
  intros Hop. destruct filter_op; [done| |]; simpl; unfold Py.float_gt;
    destruct (float_of_str a) as [x|], (float_of_str b) as [y|],
             (float_of_str c) as [z|];
    repeat split; try done;
    try apply float_lt_irrefl; try apply float_lt_asym;
    intros H1 H2; eapply float_lt_trans; eauto.
Qed.

(** X8: [EqualsOperator] holds of a cell and itself, and two cells it
    holds of compare alike with every target: cells that differ in case
    only are filtered together. *)
Theorem equals_operator_classes (a b : string) :
  apply EqualsOperator a a = true /\
  (apply EqualsOperator a b = true ->
   forall target : string,
     apply EqualsOperator a target = apply EqualsOperator b target).
Proof.
  simpl. split; [apply String.eqb_refl|].
  intros Heq target. apply String.eqb_eq in Heq. by rewrite Heq.
Qed.

(** X9: what [aggregate_data] returns for [min] or [max] on a dataset with
    a first row is the number of a cell of the column in one of the rows. *)
Theorem aggregate_data_extreme_is_cell (first : Row) (rest : Dataset)
    (column function : string) (value : Py.float) :
  function = "min" \/ function = "max" ->
  aggregate_data (first :: rest) column function = Return value ->
  exists (row : Row) (cell : string),
    row ∈ first :: rest /\ row !! column = Some cell /\
    float_of_str cell = Some value.
Proof.
  intros Hfun Hrun.
  apply aggregate_data_inv in Hrun as (agg_func & x & xs & Hagg & _ & Hcells & ->).
  assert (calculate agg_func (x :: xs) ∈ x :: xs) as Hin.
  { destruct Hfun as [->| ->]; vm_compute in Hagg; injection Hagg as <-; simpl.
    - destruct (min_fold xs x) as [[->|?] _]; [left|by right].
    - destruct (max_fold xs x) as [[->|?] _]; [left|by right]. }
  remember (calculate agg_func (x :: xs)) as value eqn:Hvalue. clear Hvalue.
  rewrite <- Hcells in Hin. unfold numeric_cells in Hin.
  apply list_elem_of_omap in Hin as (row & Hrow & Hval).
  destruct (row !! column) as [cell|] eqn:Hcell; [|done].
  by exists row, cell.
Qed.

(** X10: on a dataset with a first row whose numeric cells hold no NaN,
    the [min] of a column is at most its [max]. *)
Theorem aggregate_data_min_le_max (first : Row) (rest : Dataset)
    (column : string) (low high : Py.float) :
  no_nan (numeric_cells column (first :: rest)) ->
  aggregate_data (first :: rest) column "min" = Return low ->
  aggregate_data (first :: rest) column "max" = Return high ->
  Py.float_le low high = true.
Proof.
  intros Hnan Hmin Hmax.
  apply aggregate_data_inv in Hmin as (f1 & x & xs & Hf1 & _ & Hcells & ->).
  apply aggregate_data_inv in Hmax as (f2 & x' & xs' & Hf2 & _ & Hcells' & ->).
  rewrite Hcells in Hcells'. injection Hcells' as <- <-.
  vm_compute in Hf1, Hf2. injection Hf1 as <-. injection Hf2 as <-.
  rewrite Hcells in Hnan. simpl.
  destruct (min_fold xs x) as [_ Hlow]. destruct (Hlow Hnan) as [Hlow_x Hlow_xs].
  destruct (max_fold xs x) as [[->|Hin] _]; auto.
Qed.

(** X11: a row whose cell [float] rejects does not count: with or without
    it after the first row, [aggregate_data] returns or raises the same. *)
Theorem aggregate_data_skips_row (first row : Row) (before after : Dataset)
    (column function cell : string) :
  row !! column = Some cell -> float_of_str cell = None ->
  aggregate_data (first :: before ++ row :: after) column function
  = aggregate_data (first :: before ++ after) column function.
Proof.
  intros Hrow Hcell. rewrite !aggregate_data_step.
  destruct (first !! column) as [cell0|]; [|done].
  destruct (aggregation_functions !! function) as [agg_func|]; [|done].
  f_equal. rewrite !app_comm_cons, !numeric_loop_app.
  destruct (numeric_loop column (first :: before) []) as [acc|e]; [|done].
  change (Return acc ≫= ?k) with (k acc).
  cbn [numeric_loop]. unfold getitem. rewrite Hrow.
  change (Return cell ≫= ?k) with (k cell). cbv beta. by rewrite Hcell.
Qed.

(** X19: on a dataset with a first row, [filter_data] checks the column
    before the operator: it raises the unknown-column error exactly when
    the column is no key of the first row, whatever the operator, and the
    unsupported-operator error exactly when the column is a key of the
    first row and the operator is not registered. *)
Theorem filter_data_error_order (first : Row) (rest : Dataset)
    (column operator value : string) :
  (filter_data (first :: rest) column operator value
   = Raise (ValueError (msg_unknown_column column))
   <-> first !! column = None) /\
  (filter_data (first :: rest) column operator value
   = Raise (ValueError (msg_unsupported_operator operator))
   <-> is_Some (first !! column) /\ operators !! operator = None).
Proof.
  pose proof (msg_operator_not_column operator column) as D.
  rewrite filter_data_unfold.
  destruct (first !! column) as [cell|] eqn:Hfirst.
  - destruct (operators !! operator) as [filter_op|] eqn:Hop.
    + destruct (column_everywhere_or_missing column (first :: rest))
        as [Hall|Hex].
      * rewrite filter_loop_spec by (by apply Forall_forall).
        split; split; try done. by intros [_ ?].
      * rewrite filter_loop_key_error by done.
        split; split; try done. by intros [_ ?].
    + split; split; try done; try (intros [= Heq]; by destruct D);
        try (intros _; split; [by eexists|done]).
  - split; split; try done; try (intros [= Heq]; by destruct D);
      try (by intros [[? ?] _]).
Qed.

End Operations.

(** ** Further properties of the two parsers *)

Section Parsers.
Context `{PyBuiltins}.

(** X12: [parse_aggregation] returns the pair of [None] on the empty
    string, raises the format error on a non-empty string that does not
    hold exactly one ['='], and on [column=function] returns the stripped
    column and the stripped, lowercased function; it raises nothing else
    and never returns a pair that is half filled. *)
Theorem parse_aggregation_cases (s : string) :
  (s = "" -> parse_aggregation s = Return (None, None)) /\
  (s <> "" -> count_char "=" s <> 1%nat ->
   parse_aggregation s = Raise (ValueError msg_aggregation_format)) /\
  (forall column function : string,
      Py.contains "=" column = false -> Py.contains "=" function = false ->
      s = column +:+ "=" +:+ function ->
      parse_aggregation s
      = Return (Some (str_strip column),
                Some (str_lower (str_strip function)))) /\
  (forall r, parse_aggregation s = Return r ->
      r = (None, None) \/
      exists column function : string, r = (Some column, Some function)) /\
  (forall e, parse_aggregation s = Raise e ->
      e = ValueError msg_aggregation_format).
Proof.
  split; [by intros ->|]. split; [|split; [|split]].
  - intros Hne Hcount. unfold parse_aggregation.
    apply String.eqb_neq in Hne. rewrite Hne.
    pose proof (split_length "=" s) as Hlen.
    destruct (Py.split "=" s) as [|c [|f [|d l]]]; try done.
    simpl in Hlen. lia.
  - intros column function Hc Hf ->. unfold parse_aggregation.
    change (column +:+ "=" +:+ function)
      with (column +:+ String "=" function).
    rewrite split_app_sep, (split_free "=" column Hc),
      (split_free "=" function Hf).
    by destruct column.
  - intros r. unfold parse_aggregation. destruct (String.eqb s "").
    + intros [= <-]. by left.
    + destruct (Py.split "=" s) as [|c [|f [|d l]]]; try done.
      intros [= <-]. right. by eexists _, _.
  - apply parse_aggregation_errors.
Qed.

(** X13: [parse_filter] returns a filter only for a string with exactly
    two ['=']: a non-empty string with another number of them, and so any
    [column=operator=value] whose value holds an ['='], is refused with
    the format error. *)
Theorem parse_filter_two_separators :
  (forall s column canonical value : string,
      parse_filter s = Return (Some column, Some canonical, Some value) ->
      count_char "=" s = 2%nat) /\
  (forall s : string,
      s <> "" -> count_char "=" s <> 2%nat ->
      parse_filter s = Raise (ValueError msg_filter_format)) /\
  (forall column operator value : string,
      Py.contains "=" value = true ->
      parse_filter (column +:+ "=" +:+ operator +:+ "=" +:+ value)
      = Raise (ValueError msg_filter_format)).
Proof.
  assert (forall s : string, s <> "" -> count_char "=" s <> 2%nat ->
            parse_filter s = Raise (ValueError msg_filter_format)) as Hformat.
  { intros s Hne Hcount. unfold parse_filter.
    apply String.eqb_neq in Hne. rewrite Hne.
    pose proof (split_length "=" s) as Hlen.
    destruct (Py.split "=" s) as [|c [|m [|t [|d l]]]]; try done.
    simpl in Hlen. lia. }
  split; [|split; [done|]].
  - intros s column canonical value. unfold parse_filter.
    destruct (String.eqb s ""); [done|].
    pose proof (split_length "=" s) as Hlen.
    destruct (Py.split "=" s) as [|c [|m [|t [|d l]]]]; try done.
    simpl in Hlen. intros _. lia.
  - intros column operator value Hval. apply Hformat.
    + by destruct column.
    + rewrite !count_char_app. apply contains_count in Hval.
      change (count_char "=" "=") with 1%nat. lia.
Qed.


End Parsers.

(** ** Properties of the command line *)

Section CommandLineProperties.
Context `{PyBuiltins}.

(** What [main_aggregate] can end with on a dataset with a first row. *)
Lemma main_aggregate_inv (first : Row) (rest : Dataset)
    (aggregate_arg : option string) :
  (truthy aggregate_arg = None /\
   main_aggregate (first :: rest) aggregate_arg = Table (first :: rest)) \/
  (exists agg_str : string,
      truthy aggregate_arg = Some agg_str /\
      parse_aggregation agg_str = Raise (ValueError msg_aggregation_format) /\
      main_aggregate (first :: rest) aggregate_arg
      = Error (ValueError msg_aggregation_format)) \/
  (exists agg_str column function : string,
      truthy aggregate_arg = Some agg_str /\
      parse_aggregation agg_str = Return (Some column, Some function) /\
      main_aggregate (first :: rest) aggregate_arg
      = match aggregate_data (first :: rest) column function with
        | Return value => Aggregation column function value
        | Raise e => Error e
        end).
Proof.
  unfold main_aggregate.
  destruct (truthy aggregate_arg) as [agg_str|] eqn:Harg; [|by left].
  right. apply truthy_Some in Harg as [_ Hne].
  destruct (parse_aggregation agg_str) as [r|e] eqn:Hparse.
  - pose proof Hparse as Hinv.
    apply parse_aggregation_inv in Hinv as (c & f & _ & ->); [|done].
    right. by eexists agg_str, _, _.
  - pose proof Hparse as Herr. apply parse_aggregation_errors in Herr as ->.
    left. by exists agg_str.
Qed.

(** What [main_body] does with a filter on a dataset with a first row. *)
Lemma main_body_filter_inv (first : Row) (rest : Dataset) (filter_str : string)
    (filter_arg aggregate_arg : option string) :
  truthy filter_arg = Some filter_str ->
  (exists e, parse_filter filter_str = Raise e /\
             main_body (first :: rest) filter_arg aggregate_arg = Error e) \/
  (exists column token value canonical : string,
      Py.split "=" filter_str = [column; token; value] /\
      operator_map !! token = Some canonical /\
      main_body (first :: rest) filter_arg aggregate_arg
      = match filter_data (first :: rest) (str_strip column) canonical
                (str_strip value) with
        | Raise e => Error e
        | Return [] => NoMatches
        | Return (row :: rows) => main_aggregate (row :: rows) aggregate_arg
        end).
Proof.
  intros Harg. unfold main_body. rewrite Harg.
  apply truthy_Some in Harg as [_ Hne].
  destruct (parse_filter filter_str) as [r|e] eqn:Hparse.
  - apply parse_filter_inv in Hparse as (c & m & t & k & Hsp & Hop & ->);
      [|done].
    right. by exists c, m, t, k.
  - left. by exists e.
Qed.

(** X15: [main] never ends on an [IndexError]: the empty dataset is
    announced before any argument is parsed, and the operations are only
    called on datasets with a first row.  On a dataset of uniform schema
    every error it reports is a [ValueError]. *)
Theorem main_body_errors (data : Dataset)
    (filter_arg aggregate_arg : option string) :
  (data = [] -> main_body data filter_arg aggregate_arg = EmptyFile) /\
  main_body data filter_arg aggregate_arg <> Error IndexError /\
  (uniform_schema data ->
   forall e, main_body data filter_arg aggregate_arg = Error e ->
             exists msg : string, e = ValueError msg).
Proof.
  split; [by intros ->|].
  destruct data as [|first rest]; [by split|].
  assert (forall (r : Row) (rs : Dataset) e,
             main_aggregate (r :: rs) aggregate_arg = Error e ->
             e <> IndexError /\
             (uniform_schema (r :: rs) -> exists msg, e = ValueError msg))
    as Hagg.
  { intros r rs e.
    destruct (main_aggregate_inv r rs aggregate_arg)
      as [[_ ->]|[(a & _ & _ & ->)|(a & c & f & _ & _ & ->)]]; [done| |].
    - intros [= <-]. split; [done|by eexists].
    - destruct (aggregate_data (r :: rs) c f) as [v|e'] eqn:Hrun; [done|].
      intros [= ->].
      apply aggregate_data_errors in Hrun
        as [->|[->|[->|(-> & Hfirst & Hex)]]];
        (split; [done|]); intros Hu; try by eexists.
      apply Exists_exists in Hex as (row & Hrow & Hnone).
      destruct (uniform_schema_column r rs c Hu) with row as [cell Hcell];
        [by destruct (r !! c)|done|congruence]. }
  destruct (truthy filter_arg) as [filter_str|] eqn:Harg.
  - destruct (main_body_filter_inv first rest filter_str filter_arg
                aggregate_arg Harg)
      as [(e & Hparse & ->)|(c & m & t & k & _ & Hop & ->)].
    + apply parse_filter_errors in Hparse as [->|(? & ? & ? & _ & _ & ->)];
        (split; [done|]); intros _ e' [= <-]; by eexists.
    + destruct (filter_data (first :: rest) (str_strip c) k (str_strip t))
        as [[|row rows]|e] eqn:Hrun.
      * by split.
      * apply filter_data_inv in Hrun
          as (first' & rest' & filter_op & _ & _ & _ & Hkept).
        split.
        -- intros Herr. by apply Hagg in Herr as [? _].
        -- intros Hu e Herr. apply Hagg in Herr as [_ Hmsg]. apply Hmsg.
           rewrite Hkept. by apply uniform_schema_filter.
      * apply filter_data_errors in Hrun
          as [->|[(_ & -> & _)|(-> & Hfirst & Hex)]];
          (split; [done|]); intros Hu e' [= <-]; try by eexists.
        apply Exists_exists in Hex as (row & Hrow & Hnone).
        destruct (uniform_schema_column first rest (str_strip c) Hu) with row
          as [cell Hcell];
          [by destruct (first !! str_strip c)|done|congruence].
  - unfold main_body. rewrite Harg. split.
    + intros Herr. by apply Hagg in Herr as [? _].
    + intros Hu e Herr. apply Hagg in Herr as [_ Hmsg]. by apply Hmsg.
Qed.

(** X16: the operator that [main] hands to [filter_data] is always
    registered: when [main] reports an unsupported operator, the token is
    the middle segment of the filter string and no entry of
    [operator_map]; the check of [filter_data] itself never fires. *)
Theorem main_body_unsupported_operator (data : Dataset)
    (filter_arg aggregate_arg : option string) (token : string) :
  main_body data filter_arg aggregate_arg
  = Error (ValueError (msg_unsupported_operator token)) ->
  exists filter_str column value : string,
    filter_arg = Some filter_str /\
    Py.split "=" filter_str = [column; token; value] /\
    operator_map !! token = None.
Proof.
  pose proof (msg_operator_not_column token) as D1.
  pose proof (msg_operator_not_function token) as D2.
  pose proof (msg_operator_not_numeric token) as D3.
  destruct (msg_operator_not_format token) as [D4 D5].
  destruct data as [|first rest]; [done|].
  assert (forall (r : Row) (rs : Dataset),
             main_aggregate (r :: rs) aggregate_arg
             <> Error (ValueError (msg_unsupported_operator token))) as Hagg.
  { intros r rs.
    destruct (main_aggregate_inv r rs aggregate_arg)
      as [[_ ->]|[(a & _ & _ & ->)|(a & c & f & _ & _ & ->)]]; [done| |].
    - intros [= Heq]; by symmetry in Heq.
    - destruct (aggregate_data (r :: rs) c f) as [v|e'] eqn:Hrun; [done|].
      apply aggregate_data_errors in Hrun
        as [->|[->|[->|(-> & _ & _)]]]; try done;
        intros [= Heq]; symmetry in Heq; by first [apply D1 in Heq
          |apply D2 in Heq|apply D3 in Heq]. }
  destruct (truthy filter_arg) as [filter_str|] eqn:Harg.
  - destruct (main_body_filter_inv first rest filter_str filter_arg
                aggregate_arg Harg)
      as [(e & Hparse & ->)|(c & m & t & k & _ & Hop & ->)].
    + apply truthy_Some in Harg as [-> _]. intros [= ->].
      apply parse_filter_errors in Hparse
        as [Heq|(c & m & t & Hsp & Hop & Heq)].
      * injection Heq as Heq; by symmetry in Heq.
      * apply (f_equal (fun e => match e with ValueError msg => msg
                                    | _ => EmptyString end)) in Heq.
        apply msg_unsupported_operator_inj in Heq as ->.
        by exists filter_str, c, t.
    + destruct (filter_data (first :: rest) (str_strip c) k (str_strip t))
        as [[|row rows]|e] eqn:Hrun; [done|by intros ?%Hagg|].
      apply filter_data_errors in Hrun
        as [->|[(_ & _ & Hnone)|(-> & _ & _)]]; [|exfalso|done].
      * intros [= Heq]; symmetry in Heq; by apply D1 in Heq.
      * destruct (operator_map_canonical m k Hop) as [? ?]. congruence.
  - unfold main_body. rewrite Harg. by intros ?%Hagg.
Qed.

(** X17: an aggregate that [main] displays is never the 0.0 of an empty
    dataset: it is the reduction, by a registered function, of at least one
    numeric cell of rows of the input taken in their order. *)
Theorem main_body_aggregation (data : Dataset)
    (filter_arg aggregate_arg : option string)
    (column function : string) (value : Py.float) :
  main_body data filter_arg aggregate_arg = Aggregation column function value ->
  exists (agg_func : AggregationFunction) (rows : Dataset)
         (x : Py.float) (xs : list Py.float),
    sublist rows data /\
    aggregation_functions !! function = Some agg_func /\
    numeric_cells column rows = x :: xs /\
    value = calculate agg_func (x :: xs).
Proof.
  destruct data as [|first rest]; [done|].
  assert (forall (r : Row) (rs : Dataset),
             main_aggregate (r :: rs) aggregate_arg
             = Aggregation column function value ->
             exists agg_func x xs,
               aggregation_functions !! function = Some agg_func /\
               numeric_cells column (r :: rs) = x :: xs /\
               value = calculate agg_func (x :: xs)) as Hagg.
  { intros r rs.
    destruct (main_aggregate_inv r rs aggregate_arg)
      as [[_ ->]|[(a & _ & _ & ->)|(a & c & f & _ & _ & ->)]]; [done..|].
    destruct (aggregate_data (r :: rs) c f) as [v|e'] eqn:Hrun; [|done].
    intros [= -> -> ->].
    apply aggregate_data_inv in Hrun as (agg & x & xs & ? & _ & ? & ?).
    by exists agg, x, xs. }
  destruct (truthy filter_arg) as [filter_str|] eqn:Harg.
  - destruct (main_body_filter_inv first rest filter_str filter_arg
                aggregate_arg Harg)
      as [(e & Hparse & ->)|(c & m & t & k & _ & Hop & ->)]; [done|].
    destruct (filter_data (first :: rest) (str_strip c) k (str_strip t))
      as [[|row rows]|e] eqn:Hrun; [done| |done].
    intros (agg & x & xs & ? & ? & ?)%Hagg.
    exists agg, (row :: rows), x, xs. split; [|done].
    apply filter_data_inv in Hrun as (? & ? & filter_op & _ & _ & _ & ->).
    apply filter_sublist.
  - unfold main_body. rewrite Harg.
    intros (agg & x & xs & ? & ? & ?)%Hagg.
    by exists agg, (first :: rest), x, xs.
Qed.

(** X18: a table that [main] displays has rows, which are rows of the
    input in their order, and is displayed only without an aggregation;
    without a filter it is the whole input. *)
Theorem main_body_table (data rows : Dataset)
    (filter_arg aggregate_arg : option string) :
  main_body data filter_arg aggregate_arg = Table rows ->
  rows <> [] /\ sublist rows data /\ truthy aggregate_arg = None /\
  (truthy filter_arg = None -> rows = data).
Proof.
  destruct data as [|first rest]; [done|].
  assert (forall (r : Row) (rs : Dataset),
             main_aggregate (r :: rs) aggregate_arg = Table rows ->
             rows = r :: rs /\ truthy aggregate_arg = None) as Hagg.
  { intros r rs.
    destruct (main_aggregate_inv r rs aggregate_arg)
      as [[? ->]|[(a & _ & _ & ->)|(a & c & f & _ & _ & ->)]]; [|done|].
    - by intros [= <-].
    - by destruct (aggregate_data (r :: rs) c f). }
  destruct (truthy filter_arg) as [filter_str|] eqn:Harg.
  - destruct (main_body_filter_inv first rest filter_str filter_arg
                aggregate_arg Harg)
      as [(e & Hparse & ->)|(c & m & t & k & _ & Hop & ->)]; [done|].
    destruct (filter_data (first :: rest) (str_strip c) k (str_strip t))
      as [[|row rows']|e] eqn:Hrun; [done| |done].
    intros [-> ?]%Hagg. repeat split; try done.
    apply filter_data_inv in Hrun as (? & ? & filter_op & _ & _ & _ & ->).
    apply filter_sublist.
  - unfold main_body. rewrite Harg. intros [-> ?]%Hagg. by repeat split.
Qed.

End CommandLineProperties.

(** ** The program run on the sample dataset, with the ASCII builtins *)

#[local] Existing Instance ascii_builtins.

(** Closed equations on rows are decided by evaluation. *)
Ltac run := apply (bool_decide_unpack _); vm_compute; exact I.

Example scenario_a_filter :
  filter_data sample_data "brand" "eq" "xiaomi" = Return [redmi; poco].
Proof. run. Qed.

Example scenario_a_average :
  aggregate_data [redmi; poco] "price" "avg" = Return (literal "249.0").
Proof. vm_compute. reflexivity. Qed.

Example scenario_b :
  filter_data sample_data "price" "gt" "500" = Return [iphone; galaxy].
Proof. run. Qed.

Example scenario_c :
  parse_filter "invalid_format" = Raise (ValueError msg_filter_format) /\
  parse_filter "price=invalid=500"
  = Raise (ValueError (msg_unsupported_operator "invalid")).
Proof. split; vm_compute; reflexivity. Qed.

Example scenario_d :
  aggregate_data sample_data "name" "avg"
  = Raise (ValueError (msg_no_numeric "name")).
Proof. vm_compute. reflexivity. Qed.

Example scenario_e :
  filter_data sample_data "brand" "eq" "nonexistent" = Return [].
Proof. vm_compute. reflexivity. Qed.

Example aggregate_sample_prices :
  aggregate_data sample_data "price" "avg" = Return (literal "674") /\
  aggregate_data sample_data "price" "min" = Return (literal "199.0") /\
  aggregate_data sample_data "price" "max" = Return (literal "1199.0").
Proof. repeat split; vm_compute; reflexivity. Qed.

Example parse_filter_symbolic :
  parse_filter "price=>=500" = Return (Some "price", Some "gt", Some "500") /\
  parse_filter "price=<=500" = Return (Some "price", Some "lt", Some "500") /\
  parse_filter "a==b" = Raise (ValueError (msg_unsupported_operator "")).
Proof. repeat split; vm_compute; reflexivity. Qed.

Example parse_aggregation_upper :
  parse_aggregation "price=AVG" = Return (Some "price", Some "avg") /\
  parse_aggregation "price=median" = Return (Some "price", Some "median").
Proof. split; vm_compute; reflexivity. Qed.

(** No trimming and no numeric reading in [EqualsOperator]. *)
Example equals_as_given :
  apply EqualsOperator "Apple" "apple" = true /\
  apply EqualsOperator " apple" "apple" = false /\
  apply EqualsOperator "1.0" "1" = false.
Proof. repeat split. Qed.

(** A row without the filter column, after a first row that has it. *)
Example filter_data_ragged :
  filter_data [iphone; ∅] "price" "gt" "500" = Raise (KeyError "price").
Proof. vm_compute. reflexivity. Qed.

(** A cell [nan] is a number for [float]: it reaches [min] and, first in
    the column, is what [min] returns. *)
Example aggregate_nan_cell :
  aggregate_data [sample_row "a" "b" "nan" "1"; sample_row "c" "d" "1" "1"]
                 "price" "min"
  = Return S754_nan.
Proof. vm_compute. reflexivity. Qed.

(** ** The properties at the sample inputs *)

(** C3 at the operands [500] and [500]: neither [gt] nor [lt] holds. *)
Lemma operator_aliases_strict_witness :
  float_of_str "500" = Some (Py.float_of_int 500) /\
  apply GreaterOperator "500" "500" = false /\
  apply LessOperator "500" "500" = false.
Proof.
  split; [reflexivity|].
  apply (proj2 (proj2 (proj2 (proj2 operator_aliases_strict)))
           "500" "500" (Py.float_of_int 500)); reflexivity.
Defined.

(** C4 at [price=gt=500]. *)
Lemma parse_filter_cases_witness :
  parse_filter "price=gt=500" = Return (Some "price", Some "gt", Some "500") /\
  is_Some (operators !! "gt").
Proof.
  exact (proj1 (proj2 (proj2 (proj2 (parse_filter_cases "price=gt=500"))))
           "price" "gt" "500" "gt" eq_refl eq_refl).
Defined.

(** C5 at the column [name] of the sample: no cell is a number. *)
Lemma aggregate_data_error_order_witness :
  uniform_schema sample_data /\
  aggregate_data sample_data "name" "avg"
  = Raise (ValueError (msg_no_numeric "name")).
Proof.
  assert (uniform_schema sample_data) as Hu
    by (apply (bool_decide_unpack _); vm_compute; exact I).
  split; [exact Hu|].
  apply (proj2 (proj1 (proj2 (proj2
           (aggregate_data_error_order iphone [galaxy; redmi; poco]
              "name" "avg" Hu))))).
  split; [|split]; [by eexists|by eexists|reflexivity].
Defined.

(** C6 at the filter [price=gt=500] of the sample. *)
Lemma filter_data_subsequence_witness :
  uniform_schema sample_data /\
  filter_data sample_data "price" "gt" "500"
  = Return (List.filter (row_matches GreaterOperator "price" "500") sample_data).
Proof.
  assert (uniform_schema sample_data) as Hu
    by (apply (bool_decide_unpack _); vm_compute; exact I).
  split; [exact Hu|].
  apply (proj1 (filter_data_subsequence iphone [galaxy; redmi; poco]
                  "price" "gt" "500" GreaterOperator Hu
                  (ex_intro _ "999" eq_refl) eq_refl)).
Defined.

(** C7 at a value that is not a number. *)
Lemma numeric_operators_apply_witness :
  float_of_str "not_a_number" = None /\
  apply GreaterOperator "not_a_number" "5" = false /\
  apply LessOperator "not_a_number" "5" = false.
Proof.
  split; [reflexivity|].
  apply (proj1 (numeric_operators_apply "not_a_number" "5")).
  left. reflexivity.
Defined.

(** C9 at [10.5, 5.2, 20.8]. *)
Lemma calculate_reductions_witness :
  no_nan sample_values /\
  calculate AverageFunction sample_values = arithmetic_mean sample_values /\
  is_minimum (literal "5.2") sample_values /\
  is_maximum (literal "20.8") sample_values.
Proof.
  assert (no_nan sample_values) as Hn by (repeat constructor).
  split; [exact Hn|].
  destruct (proj2 (calculate_reductions sample_values) ltac:(discriminate))
    as (Havg & _ & _ & Hord).
  split; [exact Havg|]. exact (Hord Hn).
Defined.

(** C9 as stated fails at [nan, 1.0]: [min] and [max] both return the NaN,
    which is neither below nor above 1.0. *)
Lemma calculate_nan_counterexample :
  calculate MinFunction nan_first = S754_nan /\
  calculate MaxFunction nan_first = S754_nan /\
  ~ is_minimum (calculate MinFunction nan_first) nan_first /\
  ~ is_maximum (calculate MaxFunction nan_first) nan_first.
Proof.
  split; [reflexivity|]. split; [reflexivity|]. split.
  - intros [_ Hall]. specialize (Hall (Py.float_of_int 1)).
    assert (Py.float_of_int 1 ∈ nan_first) as Hin by (right; left).
    specialize (Hall Hin). discriminate Hall.
  - intros [_ Hall]. specialize (Hall (Py.float_of_int 1)).
    assert (Py.float_of_int 1 ∈ nan_first) as Hin by (right; left).
    specialize (Hall Hin). discriminate Hall.
Qed.

(** C10 at [price=>=500]: the token looked up is [>]. *)
Lemma parse_filter_aliases_unreachable_witness :
  exists c m t : string,
    Py.split "=" "price=>=500" = [c; m; t] /\
    Py.contains "=" m = false /\
    m ∈ ["eq"; ">"; "gt"; "<"; "lt"] /\
    (m ∉ ["=="; ">="; "<="]) /\
    operator_map !! m = Some "gt".
Proof.
  apply (proj1 (proj2 parse_filter_aliases_unreachable)
           "price=>=500" "price" "gt" "500").
  reflexivity.
Defined.

(** ** The further properties at sample inputs *)

Example main_filter_and_aggregate :
  main_body sample_data (Some "brand=eq=xiaomi") (Some "price=avg")
  = Aggregation "price" "avg" (literal "249").
Proof. run. Qed.

Example main_outcomes :
  main_body [] (Some "no separators") (Some "none either") = EmptyFile /\
  main_body sample_data (Some "brand=eq=nokia") (Some "price=avg") = NoMatches /\
  main_body sample_data (Some "") None = Table sample_data /\
  main_body sample_data None (Some "price=median")
  = Error (ValueError (msg_unsupported_function "median")) /\
  main_body sample_data (Some "price = gt = 500") None
  = Error (ValueError (msg_unsupported_operator " gt ")).
Proof. repeat split; run. Qed.

(** X1 on a dataset whose second row has no column. *)
Lemma filter_data_missing_key_witness :
  filter_data ragged_data "price" "gt" "500" = Raise (KeyError "price").
Proof.
  apply (proj2 (filter_data_missing_key iphone [∅] "price" "gt" "500"
                  ltac:(by eexists) ltac:(by eexists))).
  apply Exists_cons_hd. reflexivity.
Defined.

(** X2 on the same dataset. *)
Lemma aggregate_data_missing_key_witness :
  aggregate_data ragged_data "price" "avg" = Raise (KeyError "price").
Proof.
  apply (proj2 (aggregate_data_missing_key iphone [∅] "price" "avg"
                  ltac:(by eexists) ltac:(by eexists))).
  apply Exists_cons_hd. reflexivity.
Defined.

(** X3 on the two rows of the brand [xiaomi]. *)
Lemma filter_data_idempotent_witness :
  filter_data [redmi; poco] "brand" "eq" "xiaomi" = Return [redmi; poco].
Proof.
  apply (filter_data_idempotent sample_data redmi [poco] "brand" "eq" "xiaomi").
  apply (bool_decide_unpack _). vm_compute. exact I.
Defined.

(** X4: the brand [xiaomi], then a price above 200. *)
Lemma filter_data_twice_witness :
  exists filter_op filter_op' : FilterOperator,
    operators !! "eq" = Some filter_op /\
    operators !! "gt" = Some filter_op' /\
    [poco] = List.filter
               (fun row => row_matches filter_op "brand" "xiaomi" row
                           && row_matches filter_op' "price" "200" row)
               sample_data.
Proof.
  apply (filter_data_twice sample_data [redmi; poco] [poco]
           "brand" "eq" "xiaomi" "price" "gt" "200");
    apply (bool_decide_unpack _); vm_compute; exact I.
Defined.

(** X5 on the sample filtered by brand. *)
Lemma filter_data_keeps_schema_witness :
  uniform_schema [redmi; poco] /\
  Forall (fun row : Row => is_Some (row !! "brand")) [redmi; poco] /\
  (length [redmi; poco] <= length sample_data)%nat.
Proof.
  apply (filter_data_keeps_schema sample_data [redmi; poco]
           "brand" "eq" "xiaomi");
    apply (bool_decide_unpack _); vm_compute; exact I.
Defined.

(** X7 on the cells [3], [2], [1]. *)
Lemma numeric_operators_strict_order_witness :
  apply GreaterOperator "3" "1" = true.
Proof.
  apply (proj2 (proj2 (numeric_operators_strict_order GreaterOperator
                         "3" "2" "1" ltac:(discriminate))));
    reflexivity.
Defined.

(** X8 on [Apple] and [apple], against [APPLE]. *)
Lemma equals_operator_classes_witness :
  apply EqualsOperator "Apple" "APPLE" = apply EqualsOperator "apple" "APPLE".
Proof.
  apply (proj2 (equals_operator_classes "Apple" "apple")). reflexivity.
Defined.

(** X9: the lowest price of the sample is the price of a row. *)
Lemma aggregate_data_extreme_is_cell_witness :
  exists (row : Row) (cell : string),
    row ∈ sample_data /\ row !! "price" = Some cell /\
    float_of_str cell = Some (literal "199").
Proof.
  apply (aggregate_data_extreme_is_cell iphone [galaxy; redmi; poco]
           "price" "min" (literal "199")); [by left|].
  vm_compute. reflexivity.
Defined.

(** X10 on the prices of the sample. *)
Lemma aggregate_data_min_le_max_witness :
  Py.float_le (literal "199") (literal "1199") = true.
Proof.
  apply (aggregate_data_min_le_max iphone [galaxy; redmi; poco] "price").
  - vm_compute. repeat constructor.
  - vm_compute. reflexivity.
  - vm_compute. reflexivity.
Defined.

(** X11: a row without a price in the middle of the sample. *)
Lemma aggregate_data_skips_row_witness :
  aggregate_data (iphone :: [galaxy] ++ unpriced :: [redmi; poco]) "price" "avg"
  = aggregate_data (iphone :: [galaxy] ++ [redmi; poco]) "price" "avg".
Proof.
  apply (aggregate_data_skips_row iphone unpriced [galaxy] [redmi; poco]
           "price" "avg" "n/a"); reflexivity.
Defined.

(** X12 at [price=AVG]. *)
Lemma parse_aggregation_cases_witness :
  parse_aggregation "price=AVG" = Return (Some "price", Some "avg").
Proof.
  exact (proj1 (proj2 (proj2 (parse_aggregation_cases "price=AVG")))
           "price" "AVG" eq_refl eq_refl eq_refl).
Defined.

(** X13 at a value that holds an ['=']. *)
Lemma parse_filter_two_separators_witness :
  parse_filter "formula=eq=a=b" = Raise (ValueError msg_filter_format).
Proof.
  exact (proj2 (proj2 parse_filter_two_separators) "formula" "eq" "a=b" eq_refl).
Defined.


(** X15 on the sample with a function that is not registered. *)
Lemma main_body_errors_witness :
  exists msg : string,
    ValueError (msg_unsupported_function "median") = ValueError msg.
Proof.
  apply (proj2 (proj2 (main_body_errors sample_data None (Some "price=median")))).
  - apply (bool_decide_unpack _). vm_compute. exact I.
  - apply (bool_decide_unpack _). vm_compute. exact I.
Defined.

(** X16 on a filter whose operator is written with blanks. *)
Lemma main_body_unsupported_operator_witness :
  exists filter_str column value : string,
    Some "price = gt = 500" = Some filter_str /\
    Py.split "=" filter_str = [column; " gt "; value] /\
    operator_map !! " gt " = None.
Proof.
  apply (main_body_unsupported_operator sample_data
           (Some "price = gt = 500") None " gt ").
  apply (bool_decide_unpack _). vm_compute. exact I.
Defined.

(** X17 on the average price of the brand [xiaomi]. *)
Lemma main_body_aggregation_witness :
  exists (agg_func : AggregationFunction) (rows : Dataset)
         (x : Py.float) (xs : list Py.float),
    sublist rows sample_data /\
    aggregation_functions !! "avg" = Some agg_func /\
    numeric_cells "price" rows = x :: xs /\
    literal "249" = calculate agg_func (x :: xs).
Proof.
  apply (main_body_aggregation sample_data
           (Some "brand=eq=xiaomi") (Some "price=avg")).
  apply (bool_decide_unpack _). vm_compute. exact I.
Defined.

(** X18 on the prices above 500. *)
Lemma main_body_table_witness :
  [iphone; galaxy] <> [] /\ sublist [iphone; galaxy] sample_data /\
  truthy None = None /\
  (truthy (Some "price=gt=500") = None -> [iphone; galaxy] = sample_data).
Proof.
  apply (main_body_table sample_data [iphone; galaxy]
           (Some "price=gt=500") None).
  apply (bool_decide_unpack _). vm_compute. exact I.
Defined.

(** X19 on the sample: an unknown column is reported before an unknown
    operator. *)
Lemma filter_data_error_order_witness :
  filter_data sample_data "invalid_column" "invalid_op" "value"
  = Raise (ValueError (msg_unknown_column "invalid_column")).
Proof.
  apply (proj2 (proj1 (filter_data_error_order iphone [galaxy; redmi; poco]
                         "invalid_column" "invalid_op" "value"))).
  reflexivity.
Defined.
